(** * The MyRideWallet voice agent (agent.py): prompt loading and the three
      function tools [list_passes], [check_balances], [purchase_passes].

    The Python code is embedded shallowly.  A tool is a computation in a
    small state-and-exception monad: the state records, in order, the HTTP
    requests handed to the client session and the lines written by
    [logger.info] and [print]; an exception is a [Raise] result.  The
    process environment ([os.environ]), the HTTP client and the wallet
    backend are the variables of a section: nothing is assumed about
    them. *)

From Stdlib Require Import String Ascii List ZArith Lia Bool DecimalString.
From Stdlib Require Import Decimal DecimalPos DecimalZ.
Import ListNotations.
Local Open Scope string_scope.
Local Open Scope Z_scope.

(** ** Python values *)

(** Values that travel as JSON or YAML: the tool arguments the model emits,
    the purchase payload, parsed response bodies, the prompt document. *)
#[warnings="-register-all"]
Inductive json : Type :=
| JNull
| JBool (b : bool)
| JInt (z : Z)
| JStr (s : string)
| JList (l : list json)
| JObj (fields : list (string * json)).

(** A [dict] with string keys, in insertion order. *)
Definition dict (V : Type) : Type := list (string * V).

Fixpoint dict_get {V : Type} (k : string) (d : dict V) : option V :=
  match d with
  | [] => None
  | (k', v) :: d' => if String.eqb k k' then Some v else dict_get k d'
  end.

(** [str(n)] for a Python [int]. *)
Definition str_of_int (z : Z) : string := NilZero.string_of_int (Z.to_int z).

(** [str(x)] inside an f-string when [x] is a string or [None]. *)
Definition str_of_optional (o : option string) : string :=
  match o with
  | Some s => s
  | None => "None"
  end.

(** ** Literal types of the tool signatures *)

(** [Literal['DDOT', 'SMART', 'Regional']] *)
Inductive provider : Type := DDOT | SMART | Regional.

(** [Literal['Subsidy', 'Personal']] *)
Inductive wallet_type : Type := Subsidy | Personal.

Definition provider_name (p : provider) : string :=
  match p with
  | DDOT => "DDOT"
  | SMART => "SMART"
  | Regional => "Regional"
  end.

Definition wallet_type_name (w : wallet_type) : string :=
  match w with
  | Subsidy => "Subsidy"
  | Personal => "Personal"
  end.

Definition provider_of_string (s : string) : option provider :=
  if String.eqb s "DDOT" then Some DDOT
  else if String.eqb s "SMART" then Some SMART
  else if String.eqb s "Regional" then Some Regional
  else None.

Definition wallet_type_of_string (s : string) : option wallet_type :=
  if String.eqb s "Subsidy" then Some Subsidy
  else if String.eqb s "Personal" then Some Personal
  else None.

(** ** Exceptions and results *)

Inductive exn : Type :=
| Exception (msg : string)          (* [raise Exception(msg)] in agent.py *)
| KeyError (key : string)           (* [os.environ[key]], key not set *)
| AttributeError (msg : string)     (* [.get] on a value that has none *)
| FileNotFoundError (msg : string)  (* [open] *)
| YAMLError (msg : string)          (* [yaml.safe_load] *)
| OSError (msg : string)            (* [open], any other failure *)
| ClientError (msg : string)        (* aiohttp: transport or body decoding *)
| ValueError (msg : string)         (* aiohttp: a base URL it does not take *)
| ValidationError (param : string). (* a call that does not fit the signature *)

Inductive result (A : Type) : Type :=
| Ok (a : A)
| Raise (e : exn).
Arguments Ok {A} a.
Arguments Raise {A} e.

(** ** HTTP as the tools see it *)

Inductive http_method : Type := GET | POST.

(** What a tool hands to [session.get] / [session.post], together with the
    base URL its [ClientSession] was built with. *)
Record request : Type := mkRequest {
  req_method : http_method;
  req_base : string;
  req_url : string;
  req_headers : dict string;
  req_params : dict string;
  req_json : option json
}.

(** The response object: [response.status], [await response.text()] and
    [await response.json()]; the last one raises when the body is not a
    JSON document ([None] here). *)
Record response : Type := mkResponse {
  status : Z;
  text : string;
  json_body : option json
}.

Inductive reply : Type :=
| Response (r : response)
| Unreachable (why : string).   (* the client raises instead of answering *)

(** ** Output *)

Inductive logged : Type :=
| LStr (s : string)                    (* [logger.info("...")] *)
| LObj (v : json)                      (* [logger.info(obj)] *)
| LFmt (prefix : string) (v : json).   (* [logger.info(f"prefix{obj}")] *)

Inductive output : Type :=
| Printed (s : string)
| LogInfo (l : logged).

(** ** The monad *)

Record state : Type := mkState {
  sent : list request;   (* requests issued so far, oldest first *)
  out : list output      (* lines written so far, oldest first *)
}.

Definition M (A : Type) : Type := state -> result A * state.

Definition ret {A : Type} (a : A) : M A := fun st => (Ok a, st).

Definition raise {A : Type} (e : exn) : M A := fun st => (Raise e, st).

Definition bind {A B : Type} (m : M A) (k : A -> M B) : M B :=
  fun st =>
    match m st with
    | (Ok a, st') => k a st'
    | (Raise e, st') => (Raise e, st')
    end.

Declare Scope tool_scope.
Delimit Scope tool_scope with tool.
Notation "x <- m ;; k" := (bind m (fun x => k))
  (at level 61, m at next level, right associativity) : tool_scope.
Notation "m ;; k" := (bind m (fun _ => k))
  (at level 61, right associativity) : tool_scope.
Local Open Scope tool_scope.

Definition of_result {A : Type} (r : result A) : M A :=
  match r with
  | Ok a => ret a
  | Raise e => raise e
  end.

Definition logger_info (l : logged) : M unit :=
  fun st => (Ok tt, mkState (sent st) (out st ++ [LogInfo l])).

Definition print (s : string) : M unit :=
  fun st => (Ok tt, mkState (sent st) (out st ++ [Printed s])).

(** [try: body / except <classes> as e: handler e] *)
Definition try_except {A : Type} (body : M A) (caught : exn -> bool)
  (handler : exn -> M A) : M A :=
  fun st =>
    match body st with
    | (Ok a, st') => (Ok a, st')
    | (Raise e, st') => if caught e then handler e st' else (Raise e, st')
    end.

(** [str(e)] *)
Definition str_of_exn (e : exn) : string :=
  match e with
  | Exception m | KeyError m | AttributeError m | FileNotFoundError m
  | YAMLError m | OSError m | ClientError m | ValueError m
  | ValidationError m => m
  end.

(** ** load_prompt *)

Section Prompt.

(** [open(path, 'r')] followed by reading the file, and [yaml.safe_load]
    on what was read; either may raise. *)
Variable open_read : string -> result string.
Variable yaml_safe_load : string -> result json.

(** [prompt_data.get('instructions', '')]: a mapping has [.get]; what
    else [yaml.safe_load] can return (a scalar, a list, [None] for an empty
    file) has not. *)
Definition get_instructions (prompt_data : json) : result json :=
  match prompt_data with
  | JObj fields =>
      match dict_get "instructions" fields with
      | Some v => Ok v
      | None => Ok (JStr "")
      end
  | _ => Raise (AttributeError "object has no attribute 'get'")
  end.

(** [except (FileNotFoundError, yaml.YAMLError)] *)
Definition prompt_errors (e : exn) : bool :=
  match e with
  | FileNotFoundError _ | YAMLError _ => true
  | _ => false
  end.

Definition load_prompt (filename : string) : M json :=
  let prompt_path := filename in
  try_except
    (file <- of_result (open_read prompt_path) ;;
     prompt_data <- of_result (yaml_safe_load file) ;;
     of_result (get_instructions prompt_data))
    prompt_errors
    (fun e =>
       print ("Error loading prompt file " ++ filename ++ ": "
              ++ str_of_exn e) ;;
       ret (JStr "")).

End Prompt.

(** ** The agent and its tools *)

(** [self.username], [self.auth_key]: taken from the participant's
    attributes with [.get], so either may be [None]. *)
Record FunctionAgent : Type := mkAgent {
  username : option string;
  auth_key : option string;
  instructions : json
}.

(** [FunctionAgent.__init__]: the instructions are loaded from
    'support_agent.yaml'. *)
Definition FunctionAgent_init (open_read : string -> result string)
  (yaml_safe_load : string -> result json)
  (username auth_key : option string) : M FunctionAgent :=
  prompt <- load_prompt open_read yaml_safe_load "support_agent.yaml" ;;
  ret (mkAgent username auth_key prompt).

Section Tools.

(** [os.environ], the HTTP client and the wallet backend.  The backend
    answers a request knowing the requests it has received before, so its
    answers may change over time (a balance after a purchase). *)
Variable environ : dict string.

(** [aiohttp.ClientSession(base)]: the client takes the base URL or raises
    (it wants an absolute URL whose path ends with a slash).  Which strings
    it takes is the library's business: nothing is assumed about it. *)
Variable ClientSession : string -> result unit.

(** How the dispatch of [@function_tool] turns a value that is not an
    integer into one for an [int] parameter (the text of a number, say), if
    it does.  Nothing is assumed about it either. *)
Variable coerce_int : json -> option Z.

Variable backend : list request -> request -> reply.

(** [os.environ[key]] *)
Definition os_environ (key : string) : M string :=
  match dict_get key environ with
  | Some v => ret v
  | None => raise (KeyError key)
  end.

(** One request through the client session: it is recorded as issued, and
    the backend's answer or the client's exception comes back. *)
Definition session_request (r : request) : M response :=
  fun st =>
    let st' := mkState (sent st ++ [r]) (out st) in
    match backend (sent st) r with
    | Response resp => (Ok resp, st')
    | Unreachable why => (Raise (ClientError why), st')
    end.

Definition session_get (base url : string) (headers params : dict string)
  : M response :=
  session_request (mkRequest GET base url headers params None).

Definition session_post (base url : string) (data : json)
  (headers : dict string) : M response :=
  session_request (mkRequest POST base url headers [] (Some data)).

(** [await response.json()] *)
Definition response_json (resp : response) : M json :=
  match json_body resp with
  | Some v => ret v
  | None => raise (ClientError "response body is not JSON")
  end.

Definition list_passes (self : FunctionAgent) (transit_provider : provider)
  : M string :=
  logger_info
    (LStr ("getting available passes for " ++ provider_name transit_provider))
        ;;
  let headers :=
    [ ("accept", "*/*");
      ("accept-language", "en-US,en;q=0.9");
      ("authorization", "Bearer " ++ str_of_optional (auth_key self));
      ("content-type", "application/json") ] in
  let params := [ ("limit", "100"); ("offset", "0"); ("show_all", "true") ] in
  base <- os_environ "MYRIDE_WALLET_API" ;;
  of_result (ClientSession base) ;;
  response <- session_get base
    ("/api/passes?msp%5B%5D=" ++ provider_name transit_provider)
    headers params ;;
  if status response =? 200 then
    let passes_data := text response in
    logger_info (LStr passes_data) ;;
    ret passes_data
  else
    raise (Exception ("Failed to list available passes, status code: "
                      ++ str_of_int (status response))).

(** The body of [for i in ['subsidy', 'personal']], with [balances] the
    list built so far. *)
Fixpoint read_wallets (base : string) (headers params : dict string)
  (wallets : list string) (balances : list string) : M (list string) :=
  match wallets with
  | [] => ret balances
  | i :: wallets' =>
      response <- session_get base ("api/rider/" ++ i ++ "-wallet")
        headers params ;;
      if status response =? 200 then
        let bal := text response in
        logger_info (LStr bal) ;;
        read_wallets base headers params wallets' (balances ++ [bal])
      else
        raise (Exception ("Failed to get the user's subsidy wallet: "
                          ++ str_of_int (status response)))
  end.

Definition check_balances (self : FunctionAgent) : M (list string) :=
  logger_info (LStr "Checking user's wallets") ;;
  let headers :=
    [ ("accept", "*/*");
      ("accept-language", "en-US,en;q=0.9");
      ("authorization", "Bearer " ++ str_of_optional (auth_key self));
      ("content-type", "application/json") ] in
  let params := [ ("limit", "100"); ("offset", "0"); ("show_all", "true") ] in
  base <- os_environ "MYRIDE_WALLET_API" ;;
  of_result (ClientSession base) ;;
  balances <- read_wallets base headers params ["subsidy"; "personal"] [] ;;
  logger_info (LObj (JList (map JStr balances))) ;;
  ret balances.

Definition purchase_passes (self : FunctionAgent) (pass_id : string)
  (type_of_wallet : wallet_type) (quantity : Z) : M json :=
  logger_info (LStr ("Purchasing pass: " ++ pass_id)) ;;
  let headers :=
    [ ("accept", "*/*");
      ("authorization", "Bearer " ++ str_of_optional (auth_key self));
      ("Content-Type", "application/json") ] in
  let data :=
    JObj [ ("wallet_type", JStr (wallet_type_name type_of_wallet));
           ("pass_ids",
            JList [ JObj [ ("pass_id", JStr pass_id);
                           ("quantity", JInt quantity) ] ]) ] in
  logger_info (LObj data) ;;
  base <- os_environ "MYRIDE_WALLET_API" ;;
  of_result (ClientSession base) ;;
  response <- session_post base "/api/rider/passes" data headers ;;
  logged_body <- response_json response ;;
  logger_info (LFmt "RESPONSE: " logged_body) ;;
  if status response =? 200 then
    spec_purchase_pass <- response_json response ;;
    logger_info (LObj spec_purchase_pass) ;;
    ret spec_purchase_pass
  else
    raise (Exception ("Failed to purchase pass " ++ pass_id
                      ++ ", status code: " ++ str_of_int (status response))).

(** *** The tools as the model calls them

    [@function_tool] exposes each method under its signature: the model
    sends a tool name and an object of arguments; a parameter without a
    default is required, a [Literal] parameter takes one of its strings. *)

Definition arg_str (name : string) (args : dict json) : result string :=
  match dict_get name args with
  | Some (JStr s) => Ok s
  | _ => Raise (ValidationError name)
  end.

Definition arg_provider (name : string) (args : dict json) : result provider :=
  match dict_get name args with
  | Some (JStr s) =>
      match provider_of_string s with
      | Some p => Ok p
      | None => Raise (ValidationError name)
      end
  | _ => Raise (ValidationError name)
  end.

Definition arg_wallet_type (name : string) (args : dict json)
  : result wallet_type :=
  match dict_get name args with
  | Some (JStr s) =>
      match wallet_type_of_string s with
      | Some w => Ok w
      | None => Raise (ValidationError name)
      end
  | _ => Raise (ValidationError name)
  end.

(** A parameter [name: int = default]: left out or null it takes the
    default; an integer is taken as it is; another value is taken if the
    dispatch can read an integer in it. *)
Definition arg_int_default (name : string) (default : Z) (args : dict json)
  : result Z :=
  match dict_get name args with
  | None => Ok default
  | Some JNull => Ok default
  | Some (JInt z) => Ok z
  | Some v =>
      match coerce_int v with
      | Some z => Ok z
      | None => Raise (ValidationError name)
      end
  end.

Inductive tool : Type := ListPasses | CheckBalances | PurchasePasses.

Record tool_call : Type := mkCall {
  call_tool : tool;
  call_args : dict json
}.

Definition invoke (self : FunctionAgent) (c : tool_call) : M json :=
  match call_tool c with
  | ListPasses =>
      transit_provider <-
        of_result (arg_provider "transit_provider" (call_args c)) ;;
      passes_data <- list_passes self transit_provider ;;
      ret (JStr passes_data)
  | CheckBalances =>
      balances <- check_balances self ;;
      ret (JList (map JStr balances))
  | PurchasePasses =>
      pass_id <- of_result (arg_str "pass_id" (call_args c)) ;;
      type_of_wallet <-
        of_result (arg_wallet_type "type_of_wallet" (call_args c)) ;;
      quantity <- of_result (arg_int_default "quantity" 1 (call_args c)) ;;
      purchase_passes self pass_id type_of_wallet quantity
  end.

(** A conversation, as far as the tools are concerned: the calls the model
    makes, one after the other; a call that raises ends that call only. *)
Fixpoint run_session (self : FunctionAgent) (calls : list tool_call)
  (st : state) : list (result json) * state :=
  match calls with
  | [] => ([], st)
  | c :: calls' =>
      let (r, st1) := invoke self c st in
      let (rs, st2) := run_session self calls' st1 in
      (r :: rs, st2)
  end.

End Tools.

(** The calls with all their arguments given. *)
Definition list_passes_call (p : provider) : tool_call :=
  mkCall ListPasses [ ("transit_provider", JStr (provider_name p)) ].

Definition check_balances_call : tool_call := mkCall CheckBalances [].

Definition purchase_passes_call (pass_id : string) (w : wallet_type) (q : Z)
  : tool_call :=
  mkCall PurchasePasses
    [ ("pass_id", JStr pass_id);
      ("type_of_wallet", JStr (wallet_type_name w));
      ("quantity", JInt q) ].

(** ** The requests, named *)

Definition read_headers (self : FunctionAgent) : dict string :=
  [ ("accept", "*/*");
    ("accept-language", "en-US,en;q=0.9");
    ("authorization", "Bearer " ++ str_of_optional (auth_key self));
    ("content-type", "application/json") ].

Definition paging : dict string :=
  [ ("limit", "100"); ("offset", "0"); ("show_all", "true") ].

Definition passes_request (self : FunctionAgent) (base : string)
  (p : provider) : request :=
  mkRequest GET base ("/api/passes?msp%5B%5D=" ++ provider_name p)
    (read_headers self) paging None.

Definition wallet_request (self : FunctionAgent) (base : string)
  (wallet : string) : request :=
  mkRequest GET base ("api/rider/" ++ wallet ++ "-wallet")
    (read_headers self) paging None.

Definition purchase_payload (pass_id : string) (w : wallet_type) (q : Z)
  : json :=
  JObj [ ("wallet_type", JStr (wallet_type_name w));
         ("pass_ids",
          JList [ JObj [ ("pass_id", JStr pass_id); ("quantity", JInt q) ] ]) ].

Definition purchase_request (self : FunctionAgent) (base : string)
  (pass_id : string) (w : wallet_type) (q : Z) : request :=
  mkRequest POST base "/api/rider/passes"
    [ ("accept", "*/*");
      ("authorization", "Bearer " ++ str_of_optional (auth_key self));
      ("Content-Type", "application/json") ]
    [] (Some (purchase_payload pass_id w q)).

(** The query string that goes out: the one written in the URL, then the
    [params] in order. *)
Fixpoint after_question_mark (url : string) : string :=
  match url with
  | EmptyString => ""
  | String c url' => if Ascii.eqb c "?" then url' else after_question_mark url'
  end.

Fixpoint encode_params (params : dict string) : string :=
  match params with
  | [] => ""
  | (k, v) :: params' => "&" ++ k ++ "=" ++ v ++ encode_params params'
  end.

Definition query_string (r : request) : string :=
  after_question_mark (req_url r) ++ encode_params (req_params r).

(** ** Fixtures *)

Definition the_environ : dict string :=
  [ ("MYRIDE_WALLET_API", "https://wallet.example") ].

Definition rider : FunctionAgent :=
  mkAgent (Some "Ada") (Some "token") (JStr "").

Definition fresh : state := mkState [] [].

(** A client that takes the base URL it is given. *)
Definition session_opens : string -> result unit := fun _ => Ok tt.

(** A dispatch that reads an integer in integers only. *)
Definition strict_int : json -> option Z := fun _ => None.

(** A backend that answers every request alike. *)
Definition always (r : response) : list request -> request -> reply :=
  fun _ _ => Response r.

(** A backend with fixed wallets: one answer for the subsidy wallet, one
    for the personal wallet, one for everything else. *)
Definition wallets_backend (subsidy personal other : response)
  : list request -> request -> reply :=
  fun _ r =>
    if String.eqb (req_url r) "api/rider/subsidy-wallet" then Response subsidy
    else if String.eqb (req_url r) "api/rider/personal-wallet"
         then Response personal
    else Response other.

(** ** The exceptions the tools raise on a status other than 200 *)

Definition wallet_failure (code : Z) : exn :=
  Exception ("Failed to get the user's subsidy wallet: " ++ str_of_int code).

Definition purchase_failure (pass_id : string) (code : Z) : exn :=
  Exception ("Failed to purchase pass " ++ pass_id ++ ", status code: "
             ++ str_of_int code).

(** Whether a read came to nothing: no answer, or a status other than 200. *)
Definition read_failed (rep : reply) : Prop :=
  match rep with
  | Response resp => status resp <> 200
  | Unreachable _ => True
  end.

(** ** What a trace of requests shows *)

Definition is_purchase (r : request) : bool :=
  match req_method r with
  | POST => String.eqb (req_url r) "/api/rider/passes"
  | GET => false
  end.

Definition is_pass_listing (r : request) : bool :=
  match req_method r with
  | GET => String.prefix "/api/passes" (req_url r)
  | POST => false
  end.

Definition is_wallet_read (r : request) : bool :=
  match req_method r with
  | GET => String.prefix "api/rider/" (req_url r)
  | POST => false
  end.

(** Every purchase in the trace comes after a pass listing and after a
    wallet read. *)
Definition purchase_has_context (trace : list request) : Prop :=
  forall (before : list request) (r : request) (after : list request),
    trace = (before ++ r :: after)%list ->
    is_purchase r = true ->
    existsb is_pass_listing before = true /\
    existsb is_wallet_read before = true.

(** The requests a run added to those of [st]. *)
Definition issued {A : Type} (st : state) (run : A * state) : list request :=
  skipn (length (sent st)) (sent (snd run)).

(** A call turned down for its arguments, before any request. *)
Definition rejected_before_request (st : state) (run : result json * state)
  : Prop :=
  (exists param : string, fst run = Raise (ValidationError param)) /\
  sent (snd run) = sent st.

(** A call that was not turned down for its arguments. *)
Definition accepted (run : result json * state) : Prop :=
  forall param : string, fst run <> Raise (ValidationError param).

(** A call whose outcome comes back as a value. *)
Definition returned (run : result json * state) : Prop :=
  exists v : json, fst run = Ok v.

(** What [purchase_passes("p123", "Subsidy", 2)] comes to when the backend
    answers [resp]. *)
Definition purchase_outcome (resp : response) : result json :=
  fst (purchase_passes the_environ session_opens (always resp) rider "p123"
         Subsidy 2 fresh).

(** The answer's body can be told from the outcome. *)
Definition outcome_carries_body (resp1 resp2 : response) : Prop :=
  purchase_outcome resp1 = purchase_outcome resp2 -> text resp1 = text resp2.

(** ** The Balance Evaluator *)




(** ** Session start *)

(** [on_enter]: the instructions handed to [self.session.generate_reply],
    an f-string over three lines of the source. *)
Definition newline : string := String (ascii_of_nat 10) EmptyString.

Definition on_enter (self : FunctionAgent) : string :=
  "Greet " ++ str_of_optional (username self) ++ "." ++ newline
  ++ "            Inform them that you're here to assist with anything about MyRideWallet app."
  ++ newline
  ++ "            Be conversational, knowledgeable, and remember past conversations."
  ++ newline
  ++ "            ".

(** The participant [ctx.wait_for_participant()] delivers. *)
Record Participant : Type := mkParticipant {
  identity : string;
  name : string;
  attributes : dict string
}.

(** [str(participant.attributes)] is the text of the whole mapping. *)
Definition attributes_object (attrs : dict string) : json :=
  JObj (map (fun kv => (fst kv, JStr (snd kv))) attrs).

(** [entrypoint], from the participant on: the four log lines, the two
    [attributes.get] and the agent that is given to [session.start].  The
    calls into the room ([ctx.connect], [wait_for_participant],
    [session.start]) belong to the runtime. *)
Definition entrypoint (open_read : string -> result string)
  (yaml_safe_load : string -> result json) (participant : Participant)
  : M FunctionAgent :=
  logger_info (LStr "Participant Info ***") ;;
  logger_info (LStr ("Identity: " ++ identity participant)) ;;
  logger_info (LStr ("Name: " ++ name participant)) ;;
  logger_info (LFmt "ATTRIBUTES: " (attributes_object (attributes participant)))
      ;;
  let auth_key := dict_get "auth_key" (attributes participant) in
  let username := dict_get "username" (attributes participant) in
  FunctionAgent_init open_read yaml_safe_load username auth_key.

(** The state in which [entrypoint] builds the agent. *)
Definition entrypoint_logged (participant : Participant) (st : state) : state :=
  mkState (sent st)
    ((((out st ++ [LogInfo (LStr "Participant Info ***")]) ++
       [LogInfo (LStr ("Identity: " ++ identity participant))]) ++
      [LogInfo (LStr ("Name: " ++ name participant))]) ++
     [LogInfo (LFmt "ATTRIBUTES: "
                 (attributes_object (attributes participant)))]).

(** ** Invariants of the requests a computation sends *)

(** [m] keeps the requests already sent and adds only requests that
    satisfy [P]. *)
Definition sends_only {A : Type} (P : request -> Prop) (m : M A) : Prop :=
  forall st : state,
    exists l : list request,
      sent (snd (m st)) = (sent st ++ l)%list /\ Forall P l.

(** [m] sends nothing. *)
Definition silent_on_the_wire {A : Type} (m : M A) : Prop :=
  forall st : state, sent (snd (m st)) = sent st.

(** The authorization header of a request. *)
Definition authorization (r : request) : option string :=
  dict_get "authorization" (req_headers r).

(** [int(s)] for the text of an integer. *)
Definition int_of_str (s : string) : option Z :=
  option_map Z.of_int (NilZero.int_of_string s).

(** * Properties *)


(** ** load_prompt *)

(** C8.  An empty prompt file is a malformed prompt (there is no mapping
    with 'instructions' in it): [yaml.safe_load] returns [None], [.get]
    raises AttributeError inside the [try], the [except] clause does not
    name that class, and so [load_prompt] raises, with nothing printed; and
    [FunctionAgent.__init__], which calls it, raises too. *)
Theorem load_prompt_raises_on_empty_file :
  load_prompt (fun _ => Ok "") (fun _ => Ok JNull) "support_agent.yaml" fresh =
    (Raise (AttributeError "object has no attribute 'get'"), fresh)
  /\ fst (FunctionAgent_init (fun _ => Ok "") (fun _ => Ok JNull)
            (Some "Ada") (Some "token") fresh) =
       Raise (AttributeError "object has no attribute 'get'").
Proof. split; reflexivity. Qed.

Example load_prompt_reads_instructions :
  fst (load_prompt (fun _ => Ok "instructions: Be kind.")
         (fun _ => Ok (JObj [("instructions", JStr "Be kind.")]))
         "support_agent.yaml" fresh) =
    Ok (JStr "Be kind.").
Proof. reflexivity. Qed.

(** ** list_passes *)

Section ListPasses.

Variable environ : dict string.
Variable ClientSession : string -> result unit.
Variable coerce_int : json -> option Z.
Variable backend : list request -> request -> reply.
Variable self : FunctionAgent.
Variable base : string.
Hypothesis configured : dict_get "MYRIDE_WALLET_API" environ = Some base.
Hypothesis connected : ClientSession base = Ok tt.

(** [list_passes], once the base URL is read: what it does for each
    answer to its single request. *)
Lemma list_passes_eq (p : provider) (st : state) :
  list_passes environ ClientSession backend self p st =
    let st1 :=
      mkState (sent st ++ [passes_request self base p])
        (out st ++ [LogInfo (LStr ("getting available passes for "
                                ++ provider_name p))]) in
    match backend (sent st) (passes_request self base p) with
    | Unreachable why => (Raise (ClientError why), st1)
    | Response resp =>
        if status resp =? 200
        then (Ok (text resp),
              mkState (sent st1) (out st1 ++ [LogInfo (LStr (text resp))]))
        else (Raise (Exception
                       ("Failed to list available passes, status code: "
                        ++ str_of_int (status resp))), st1)
    end.
Proof.
  unfold list_passes, bind, os_environ, of_result. rewrite configured.
  unfold ret at 1. cbv beta iota. rewrite connected.
  unfold session_get, session_request, logger_info, ret, raise. simpl.
  change (mkRequest GET base _ _ _ None) with (passes_request self base p).
  destruct (backend (sent st) (passes_request self base p)) as [resp | why];
    [destruct (status resp =? 200)|]; reflexivity.
Qed.

Lemma list_passes_sends (p : provider) (st : state) :
  sent (snd (list_passes environ ClientSession backend self p st)) =
    (sent st ++ [passes_request self base p])%list.
Proof.
  rewrite list_passes_eq. cbv zeta.
  destruct (backend _ _) as [resp | why]; [destruct (status resp =? 200)|];
    reflexivity.
Qed.

Lemma list_passes_ok (p : provider) (st : state) (resp : response) :
  backend (sent st) (passes_request self base p) = Response resp ->
  status resp = 200 ->
  fst (list_passes environ ClientSession backend self p st) = Ok (text resp).
Proof.
  intros Hreply Hstatus. rewrite list_passes_eq. cbv zeta.
  rewrite Hreply, Hstatus. reflexivity.
Qed.

Lemma list_passes_fails (p : provider) (st : state) (resp : response) :
  backend (sent st) (passes_request self base p) = Response resp ->
  status resp <> 200 ->
  fst (list_passes environ ClientSession backend self p st) =
    Raise (Exception ("Failed to list available passes, status code: "
                      ++ str_of_int (status resp))).
Proof.
  intros Hreply Hstatus. rewrite list_passes_eq. cbv zeta.
  apply Z.eqb_neq in Hstatus. rewrite Hreply, Hstatus. reflexivity.
Qed.

End ListPasses.

(** C6.  With the base URL set and taken by the client, for each of the
    three providers [list_passes] issues exactly one request, a GET whose
    query string names that provider and carries limit=100, offset=0 and
    show_all=true; when the answer has status 200 the tool returns its body
    as it is. *)
Theorem list_passes_one_get :
  forall (environ : dict string)
         (ClientSession : string -> result unit)
         (backend : list request -> request -> reply)
         (self : FunctionAgent) (base : string) (p : provider) (st : state),
    dict_get "MYRIDE_WALLET_API" environ = Some base ->
    ClientSession base = Ok tt ->
    let r := passes_request self base p in
    sent (snd (list_passes environ ClientSession backend self p st)) = (sent st
        ++ [r])%list
    /\ req_method r = GET
    /\ query_string r =
         "msp%5B%5D=" ++ provider_name p ++ "&limit=100&offset=0&show_all=true"
    /\ (forall resp : response,
          backend (sent st) r = Response resp ->
          status resp = 200 ->
          fst (list_passes environ ClientSession backend self p st) = Ok (text
              resp)).
Proof.
  intros environ ClientSession backend self base p st configured connected r.
      subst r.
  split; [|split; [|split]].
  - now apply list_passes_sends.
  - reflexivity.
  - destruct p; reflexivity.
  - intros resp Hreply Hstatus.
    now apply (list_passes_ok environ ClientSession backend self base configured
        connected).
Qed.

Lemma list_passes_one_get_witness :
  let r := passes_request rider "https://wallet.example" SMART in
  sent (snd (list_passes the_environ session_opens (always (mkResponse 200 "[]"
      None))
               rider SMART fresh)) = [r]
  /\ req_method r = GET
  /\ query_string r = "msp%5B%5D=SMART&limit=100&offset=0&show_all=true"
  /\ (forall resp : response,
        always (mkResponse 200 "[]" None) [] r = Response resp ->
        status resp = 200 ->
        fst (list_passes the_environ session_opens (always (mkResponse 200 "[]"
            None))
               rider SMART fresh) = Ok (text resp)).
Proof.
  apply (list_passes_one_get the_environ session_opens
           (always (mkResponse 200 "[]" None))
           rider "https://wallet.example" SMART fresh);
    reflexivity.
Defined.

(** ** check_balances *)

Section CheckBalances.

Variable environ : dict string.
Variable ClientSession : string -> result unit.
Variable coerce_int : json -> option Z.
Variable backend : list request -> request -> reply.
Variable self : FunctionAgent.
Variable base : string.
Hypothesis configured : dict_get "MYRIDE_WALLET_API" environ = Some base.
Hypothesis connected : ClientSession base = Ok tt.

Let subsidy_read : request := wallet_request self base "subsidy".
Let personal_read : request := wallet_request self base "personal".

(** [check_balances], once the base URL is read: the subsidy wallet is
    asked first, the personal wallet only after a 200 from the first. *)
Lemma check_balances_eq (st : state) :
  check_balances environ ClientSession backend self st =
    let checking := LogInfo (LStr "Checking user's wallets") in
    let sent1 := (sent st ++ [subsidy_read])%list in
    let sent2 := (sent1 ++ [personal_read])%list in
    match backend (sent st) subsidy_read with
    | Unreachable why =>
        (Raise (ClientError why), mkState sent1 (out st ++ [checking]))
    | Response s =>
        if status s =? 200 then
          let out1 := ((out st ++ [checking]) ++ [LogInfo (LStr (text s))])%list
              in
          match backend sent1 personal_read with
          | Unreachable why => (Raise (ClientError why), mkState sent2 out1)
          | Response p =>
              if status p =? 200 then
                (Ok [text s; text p],
                 mkState sent2
                   ((out1 ++ [LogInfo (LStr (text p))]) ++
                    [LogInfo (LObj (JList [JStr (text s); JStr (text p)]))]))
              else (Raise (wallet_failure (status p)), mkState sent2 out1)
          end
        else (Raise (wallet_failure (status s)),
              mkState sent1 (out st ++ [checking]))
    end.
Proof.
  unfold check_balances, bind, os_environ, of_result. rewrite configured.
  unfold ret at 1. cbv beta iota. rewrite connected.
  unfold read_wallets, bind, session_get, session_request, logger_info,
    ret, raise. simpl.
  change (mkRequest GET base "api/rider/subsidy-wallet" _ _ None)
    with subsidy_read.
  change (mkRequest GET base "api/rider/personal-wallet" _ _ None)
    with personal_read.
  destruct (backend (sent st) subsidy_read) as [s | why]; [|reflexivity].
  destruct (status s =? 200); [|reflexivity].
  cbn [sent out].
  destruct (backend (sent st ++ [subsidy_read]) personal_read) as [p | why];
    [|reflexivity].
  destruct (status p =? 200); reflexivity.
Qed.

(** No partial result: a returned list holds both bodies, and both reads
    were answered with status 200. *)
Lemma check_balances_all_or_nothing (st : state) (balances : list string) :
  fst (check_balances environ ClientSession backend self st) = Ok balances ->
  exists s p : response,
    backend (sent st) subsidy_read = Response s /\ status s = 200 /\
    backend (sent st ++ [subsidy_read]) personal_read = Response p /\
    status p = 200 /\
    balances = [text s; text p].
Proof.
  rewrite check_balances_eq. cbv zeta.
  destruct (backend (sent st) subsidy_read) as [s | why]; [|discriminate].
  destruct (Z.eqb_spec (status s) 200) as [Hs | Hs]; [|discriminate].
  destruct (backend (sent st ++ [subsidy_read]) personal_read) as [p | why];
    [|discriminate].
  destruct (Z.eqb_spec (status p) 200) as [Hp | Hp]; [|discriminate].
  intros H. injection H as <-. exists s, p. repeat split; assumption.
Qed.

End CheckBalances.

(** C10.  With the base URL set and taken by the client,
    [check_balances] asks for the subsidy wallet first and the personal
    wallet second; when both answer 200 the result is the list of the two
    bodies, subsidy then personal, and a returned list is always of that
    form; when the subsidy read fails the personal wallet is never
    asked. *)
Theorem check_balances_in_order :
  forall (environ : dict string)
         (ClientSession : string -> result unit)
         (backend : list request -> request -> reply)
         (self : FunctionAgent) (base : string) (st : state),
    dict_get "MYRIDE_WALLET_API" environ = Some base ->
    ClientSession base = Ok tt ->
    let subsidy_read := wallet_request self base "subsidy" in
    let personal_read := wallet_request self base "personal" in
    let run := check_balances environ ClientSession backend self st in
    (sent (snd run) = (sent st ++ [subsidy_read])%list \/
     sent (snd run) = (sent st ++ [subsidy_read; personal_read])%list)
    /\ (forall s p : response,
          backend (sent st) subsidy_read = Response s -> status s = 200 ->
          backend (sent st ++ [subsidy_read])%list personal_read = Response p ->
          status p = 200 ->
          fst run = Ok [text s; text p])
    /\ (forall balances : list string,
          fst run = Ok balances ->
          sent (snd run) = (sent st ++ [subsidy_read; personal_read])%list /\
          exists s p : response,
            backend (sent st) subsidy_read = Response s /\
            backend (sent st ++ [subsidy_read])%list personal_read = Response p
                /\
            balances = [text s; text p])
    /\ (read_failed (backend (sent st) subsidy_read) ->
        sent (snd run) = (sent st ++ [subsidy_read])%list /\
        ~ In personal_read (skipn (length (sent st)) (sent (snd run)))).
Proof.
  intros environ ClientSession backend self base st configured connected
      subsidy_read personal_read run.
  assert (Hrun : run = check_balances environ ClientSession backend self st) by
      reflexivity.
  rewrite (check_balances_eq environ ClientSession backend self base configured
      connected) in Hrun.
  cbv zeta in Hrun. fold subsidy_read personal_read in Hrun.
  assert (Htwo : ((sent st ++ [subsidy_read]) ++ [personal_read] =
                  sent st ++ [subsidy_read; personal_read])%list)
    by (rewrite <- app_assoc; reflexivity).
  split; [|split; [|split]].
  - rewrite Hrun.
    destruct (backend (sent st) subsidy_read) as [s | why]; [|now left].
    destruct (status s =? 200); [|now left].
    destruct (backend (sent st ++ [subsidy_read])%list personal_read) as [p |
        why];
      [destruct (status p =? 200)|]; right; exact Htwo.
  - intros s p Hs Hs200 Hp Hp200. rewrite Hrun, Hs, Hs200. simpl.
    rewrite Hp, Hp200. reflexivity.
  - intros balances Hok. split.
    + rewrite Hrun in Hok |- *.
      destruct (backend (sent st) subsidy_read) as [s | why]; [|discriminate].
      destruct (status s =? 200); [|discriminate].
      destruct (backend (sent st ++ [subsidy_read])%list personal_read)
        as [p | why]; [destruct (status p =? 200)|]; exact Htwo.
    + destruct (check_balances_all_or_nothing environ ClientSession backend self
        base
                  configured connected st balances Hok)
        as [s [p [Hs [_ [Hp [_ Hbal]]]]]].
      exists s, p. repeat split; assumption.
  - intros Hfailed.
    assert (Hsent : sent (snd run) = (sent st ++ [subsidy_read])%list).
    { rewrite Hrun.
      destruct (backend (sent st) subsidy_read) as [s | why]; [|reflexivity].
      simpl in Hfailed. apply Z.eqb_neq in Hfailed. rewrite Hfailed.
      reflexivity. }
    split; [exact Hsent|].
    rewrite Hsent, skipn_app, skipn_all, Nat.sub_diag. simpl.
    intros [Heq | []]. discriminate Heq.
Qed.

Lemma check_balances_in_order_witness :
  dict_get "MYRIDE_WALLET_API" the_environ = Some "https://wallet.example" /\
  fst (check_balances the_environ session_opens
         (wallets_backend (mkResponse 200 "0" None) (mkResponse 200 "40" None)
            (mkResponse 404 "" None))
         rider fresh) = Ok ["0"; "40"].
Proof.
  split; [reflexivity|].
  refine (proj1 (proj2 (check_balances_in_order the_environ session_opens
                          (wallets_backend (mkResponse 200 "0" None)
                             (mkResponse 200 "40" None)
                             (mkResponse 404 "" None))
                          rider "https://wallet.example" fresh eq_refl
                          eq_refl))
            (mkResponse 200 "0" None) (mkResponse 200 "40" None)
            eq_refl eq_refl eq_refl eq_refl).
Defined.

(** C4.  The subsidy wallet answers 200 and the personal wallet answers
    500: both reads are made, nothing is returned, and the exception raised
    speaks of the subsidy wallet, the one whose read succeeded. *)
Theorem check_balances_names_wrong_wallet :
  let backend :=
    wallets_backend (mkResponse 200 "50" None) (mkResponse 500 "down" None)
      (mkResponse 404 "" None) in
  let run := check_balances the_environ session_opens backend rider fresh in
  sent (snd run) =
    [ wallet_request rider "https://wallet.example" "subsidy";
      wallet_request rider "https://wallet.example" "personal" ]
  /\ fst run = Raise (Exception "Failed to get the user's subsidy wallet: 500").
Proof. split; reflexivity. Qed.

(** ** purchase_passes *)

Section PurchasePasses.

Variable environ : dict string.
Variable ClientSession : string -> result unit.
Variable coerce_int : json -> option Z.
Variable backend : list request -> request -> reply.
Variable self : FunctionAgent.
Variable base : string.
Hypothesis configured : dict_get "MYRIDE_WALLET_API" environ = Some base.
Hypothesis connected : ClientSession base = Ok tt.

(** [purchase_passes], once the base URL is read.  The body is parsed for
    the log line before the status is looked at. *)
Lemma purchase_passes_eq (pass_id : string) (w : wallet_type) (q : Z)
  (st : state) :
  purchase_passes environ ClientSession backend self pass_id w q st =
    let r := purchase_request self base pass_id w q in
    let st1 :=
      mkState (sent st ++ [r])
        ((out st ++ [LogInfo (LStr ("Purchasing pass: " ++ pass_id))]) ++
         [LogInfo (LObj (purchase_payload pass_id w q))]) in
    match backend (sent st) r with
    | Unreachable why => (Raise (ClientError why), st1)
    | Response resp =>
        match json_body resp with
        | None => (Raise (ClientError "response body is not JSON"), st1)
        | Some v =>
            let out2 := (out st1 ++ [LogInfo (LFmt "RESPONSE: " v)])%list in
            if status resp =? 200
            then (Ok v, mkState (sent st1) (out2 ++ [LogInfo (LObj v)]))
            else (Raise (purchase_failure pass_id (status resp)),
                  mkState (sent st1) out2)
        end
    end.
Proof.
  unfold purchase_passes, bind, os_environ, of_result. rewrite configured.
  unfold ret at 1. cbv beta iota. rewrite connected.
  unfold session_post, session_request, response_json, logger_info,
    ret, raise. simpl.
  change (mkRequest POST base "/api/rider/passes" _ [] _)
    with (purchase_request self base pass_id w q).
  destruct (backend (sent st) (purchase_request self base pass_id w q))
    as [resp | why]; [|reflexivity].
  destruct (json_body resp) as [v |]; [|reflexivity].
  destruct (status resp =? 200); reflexivity.
Qed.

(** Whatever the arguments, the state and the answer: one POST, built from
    the arguments as they are. *)
Lemma purchase_passes_sends (pass_id : string) (w : wallet_type) (q : Z)
  (st : state) :
  sent (snd (purchase_passes environ ClientSession backend self pass_id w q st))
      =
    (sent st ++ [purchase_request self base pass_id w q])%list.
Proof.
  rewrite purchase_passes_eq. cbv zeta.
  destruct (backend _ _) as [resp | why]; [|reflexivity].
  destruct (json_body resp) as [v |]; [|reflexivity].
  destruct (status resp =? 200); reflexivity.
Qed.

Lemma purchase_passes_result (pass_id : string) (w : wallet_type) (q : Z)
  (st : state) :
  match fst (purchase_passes environ ClientSession backend self pass_id w q st)
      with
  | Ok _ => True
  | Raise (Exception _) => True
  | Raise (ClientError _) => True
  | Raise _ => False
  end.
Proof.
  rewrite purchase_passes_eq. cbv zeta.
  destruct (backend _ _) as [resp | why]; [|exact I].
  destruct (json_body resp) as [v |]; [|exact I].
  destruct (status resp =? 200); exact I.
Qed.

Lemma purchase_passes_ok (pass_id : string) (w : wallet_type) (q : Z)
  (st : state) (resp : response) (v : json) :
  backend (sent st) (purchase_request self base pass_id w q) = Response resp ->
  json_body resp = Some v ->
  status resp = 200 ->
  fst (purchase_passes environ ClientSession backend self pass_id w q st) = Ok
      v.
Proof.
  intros Hreply Hjson Hstatus. rewrite purchase_passes_eq. cbv zeta.
  rewrite Hreply, Hjson, Hstatus. reflexivity.
Qed.

Lemma purchase_passes_fails (pass_id : string) (w : wallet_type) (q : Z)
  (st : state) (resp : response) (v : json) :
  backend (sent st) (purchase_request self base pass_id w q) = Response resp ->
  json_body resp = Some v ->
  status resp <> 200 ->
  fst (purchase_passes environ ClientSession backend self pass_id w q st) =
    Raise (purchase_failure pass_id (status resp)).
Proof.
  intros Hreply Hjson Hstatus. rewrite purchase_passes_eq. cbv zeta.
  apply Z.eqb_neq in Hstatus. rewrite Hreply, Hjson, Hstatus. reflexivity.
Qed.

(** The call with all three arguments is the method on those arguments. *)
Lemma invoke_purchase_passes (pass_id : string) (w : wallet_type) (q : Z)
  (st : state) :
  invoke environ ClientSession coerce_int backend self (purchase_passes_call
      pass_id w q) st =
    purchase_passes environ ClientSession backend self pass_id w q st.
Proof.
  unfold invoke, purchase_passes_call, bind, of_result. simpl.
  destruct w; reflexivity.
Qed.

End PurchasePasses.

(** ** Sessions *)

Lemma run_session_app (environ : dict string)
  (ClientSession : string -> result unit) (coerce_int : json -> option Z)
  (backend : list request -> request -> reply) (self : FunctionAgent)
  (calls more : list tool_call) (st : state) :
  run_session environ ClientSession coerce_int backend self (calls ++ more) st =
    let (rs, st1) := run_session environ ClientSession coerce_int backend self
        calls st in
    let (rs', st2) := run_session environ ClientSession coerce_int backend self
        more st1 in
    ((rs ++ rs')%list, st2).
Proof.
  revert st. induction calls as [| c calls IH]; intros st; simpl.
  - destruct (run_session environ ClientSession coerce_int backend self more
      st); reflexivity.
  - destruct (invoke environ ClientSession coerce_int backend self c st) as [r
      st1].
    rewrite IH.
    destruct (run_session environ ClientSession coerce_int backend self calls
        st1) as [rs st2].
    destruct (run_session environ ClientSession coerce_int backend self more
        st2); reflexivity.
Qed.

(** ** C1: no guard before a purchase *)

(** C1, refuted as stated.  A conversation whose only call is
    [purchase_passes("p123", "Subsidy", 2)] sends the purchase: no pass
    listing and no wallet read came before it. *)
Lemma purchase_without_context :
  ~ purchase_has_context
      (sent (snd (run_session the_environ session_opens strict_int
                    (always (mkResponse 200 "{}" (Some (JObj []))))
                    rider [purchase_passes_call "p123" Subsidy 2] fresh))).
Proof.
  intros guarded.
  destruct (guarded []
              (purchase_request rider "https://wallet.example" "p123" Subsidy 2)
              [] eq_refl eq_refl) as [listing _].
  discriminate listing.
Qed.

(** C1, as the code has it.  With the base URL set and taken by the
    client, whatever calls were made before in the conversation (none, or
    any), a [purchase_passes] call sends its purchase request: the tool
    keeps no record of a pass listing or of a balance check and never
    declines for want of one. *)
Theorem purchase_passes_after_any_calls :
  forall (environ : dict string)
         (ClientSession : string -> result unit)
         (coerce_int : json -> option Z)
         (backend : list request -> request -> reply)
         (self : FunctionAgent) (base : string) (calls : list tool_call)
         (pass_id : string) (w : wallet_type) (q : Z) (st : state),
    dict_get "MYRIDE_WALLET_API" environ = Some base ->
    ClientSession base = Ok tt ->
    sent (snd (run_session environ ClientSession coerce_int backend self
                 (calls ++ [purchase_passes_call pass_id w q]) st)) =
      (sent (snd (run_session environ ClientSession coerce_int backend self
          calls st)) ++
       [purchase_request self base pass_id w q])%list.
Proof.
  intros environ ClientSession coerce_int backend self base calls pass_id w q st
      configured connected.
  rewrite run_session_app.
  destruct (run_session environ ClientSession coerce_int backend self calls st)
      as [rs st1].
  cbn [run_session snd].
  rewrite invoke_purchase_passes.
  pose proof (purchase_passes_sends environ ClientSession backend self base
      configured connected
                pass_id w q st1) as Hsent.
  destruct (purchase_passes environ ClientSession backend self pass_id w q st1)
      as [r st2].
  exact Hsent.
Qed.

Lemma purchase_passes_after_any_calls_witness :
  dict_get "MYRIDE_WALLET_API" the_environ = Some "https://wallet.example" /\
  sent (snd (run_session the_environ session_opens strict_int
               (always (mkResponse 200 "{}" (Some (JObj []))))
               rider ([] ++ [purchase_passes_call "p123" Subsidy 2]) fresh)) =
    [purchase_request rider "https://wallet.example" "p123" Subsidy 2].
Proof.
  split; [reflexivity|].
  exact (purchase_passes_after_any_calls the_environ session_opens strict_int
           (always (mkResponse 200 "{}" (Some (JObj []))))
           rider "https://wallet.example" [] "p123" Subsidy 2 fresh eq_refl
           eq_refl).
Defined.

(** ** C2: no check of the purchase arguments *)

(** C2, refuted as stated.  Quantity 0, quantity -1 and an empty pass id
    are each sent to the backend. *)
Lemma purchase_bad_values_not_rejected :
  let backend := always (mkResponse 200 "{}" (Some (JObj []))) in
  ~ rejected_before_request fresh
      (invoke the_environ session_opens strict_int backend rider
         (purchase_passes_call "p123" Subsidy 0) fresh)
  /\ ~ rejected_before_request fresh
         (invoke the_environ session_opens strict_int backend rider
            (purchase_passes_call "p123" Subsidy (-1)) fresh)
  /\ ~ rejected_before_request fresh
         (invoke the_environ session_opens strict_int backend rider
            (purchase_passes_call "" Subsidy 1) fresh).
Proof.
  repeat split; intros [_ nothing_sent]; discriminate nothing_sent.
Qed.

(** C2, as the code has it.  [purchase_passes] looks at neither the
    quantity nor the pass id: for every pass id (the empty one too) and
    every integer quantity (zero and negative too) the call is not turned
    down for its arguments, and, with the base URL set and taken by the
    client, one POST is sent whose body carries the pass id and the
    quantity as given. *)
Theorem purchase_passes_takes_any_values :
  forall (environ : dict string)
         (ClientSession : string -> result unit)
         (coerce_int : json -> option Z)
         (backend : list request -> request -> reply)
         (self : FunctionAgent) (base : string)
         (pass_id : string) (w : wallet_type) (q : Z) (st : state),
    dict_get "MYRIDE_WALLET_API" environ = Some base ->
    ClientSession base = Ok tt ->
    let run :=
      invoke environ ClientSession coerce_int backend self (purchase_passes_call
          pass_id w q) st in
    accepted run /\
    exists r : request,
      sent (snd run) = (sent st ++ [r])%list /\
      req_method r = POST /\
      req_json r =
        Some (JObj [ ("wallet_type", JStr (wallet_type_name w));
                     ("pass_ids",
                      JList [ JObj [ ("pass_id", JStr pass_id);
                                     ("quantity", JInt q) ] ]) ]).
Proof.
  intros environ ClientSession coerce_int backend self base pass_id w q st
      configured connected run.
  subst run. rewrite invoke_purchase_passes. split.
  - intros param Hraise.
    pose proof (purchase_passes_result environ ClientSession backend self base
        configured connected
                  pass_id w q st) as Hres.
    rewrite Hraise in Hres. exact Hres.
  - exists (purchase_request self base pass_id w q).
    split; [|split; reflexivity].
    now apply purchase_passes_sends.
Qed.

Lemma purchase_passes_takes_any_values_witness :
  dict_get "MYRIDE_WALLET_API" the_environ = Some "https://wallet.example" /\
  accepted (invoke the_environ session_opens strict_int (always (mkResponse 200
      "{}" (Some (JObj []))))
              rider (purchase_passes_call "" Personal (-3)) fresh).
Proof.
  split; [reflexivity|].
  exact (proj1 (purchase_passes_takes_any_values the_environ session_opens
      strict_int
                  (always (mkResponse 200 "{}" (Some (JObj []))))
                  rider "https://wallet.example" "" Personal (-3) fresh
                  eq_refl eq_refl)).
Defined.

(** ** C3: the Balance Evaluator *)


(** ** C5: failures are raised *)

Lemma invoke_list_passes (environ : dict string)
  (ClientSession : string -> result unit) (coerce_int : json -> option Z)
  (backend : list request -> request -> reply) (self : FunctionAgent)
  (p : provider) (st : state) :
  invoke environ ClientSession coerce_int backend self (list_passes_call p) st =
    (passes_data <- list_passes environ ClientSession backend self p ;;
     ret (JStr passes_data)) st.
Proof. destruct p; reflexivity. Qed.

Lemma fst_bind_raise {A B : Type} (m : M A) (k : A -> M B) (st : state)
  (e : exn) :
  fst (m st) = Raise e -> fst (bind m k st) = Raise e.
Proof.
  unfold bind. destruct (m st) as [[a | e'] st']; simpl; intros H.
  - discriminate H.
  - injection H as ->. reflexivity.
Qed.

(** C5, refuted as stated.  [list_passes("DDOT")] against a backend that
    answers 500 does not return anything: it raises. *)
Lemma list_passes_failure_is_raised :
  ~ returned (invoke the_environ session_opens strict_int (always (mkResponse
      500 "down" None)) rider
                (list_passes_call DDOT) fresh).
Proof. intros [v Hv]. discriminate Hv. Qed.

(** C5, as the code has it.  Once the client has taken the base URL, a
    status other than 200 makes the tool raise a plain [Exception] whose
    only content is a sentence that ends with the status code.  This is so
    for [list_passes], for [check_balances] on either of its reads, and for
    [purchase_passes] when the answer's body is a JSON document; for
    [list_passes] and [purchase_passes] the sentence names the operation in
    words. *)
Theorem tool_failures_are_raised :
  forall (environ : dict string)
         (ClientSession : string -> result unit)
         (coerce_int : json -> option Z)
         (backend : list request -> request -> reply)
         (self : FunctionAgent) (base : string) (st : state),
    dict_get "MYRIDE_WALLET_API" environ = Some base ->
    ClientSession base = Ok tt ->
    (forall (p : provider) (resp : response),
        backend (sent st) (passes_request self base p) = Response resp ->
        status resp <> 200 ->
        fst (invoke environ ClientSession coerce_int backend self
               (list_passes_call p) st) =
          Raise (Exception ("Failed to list available passes, status code: "
                            ++ str_of_int (status resp))))
    /\ (forall resp : response,
          (backend (sent st) (wallet_request self base "subsidy") =
             Response resp \/
           exists s : response,
             backend (sent st) (wallet_request self base "subsidy") =
               Response s /\
             status s = 200 /\
             backend (sent st ++ [wallet_request self base "subsidy"])%list
               (wallet_request self base "personal") = Response resp) ->
          status resp <> 200 ->
          exists sentence : string,
            fst (invoke environ ClientSession coerce_int backend self
                   check_balances_call st) =
              Raise (Exception (sentence ++ str_of_int (status resp))))
    /\ (forall (pass_id : string) (w : wallet_type) (q : Z)
               (resp : response) (v : json),
          backend (sent st) (purchase_request self base pass_id w q) =
            Response resp ->
          json_body resp = Some v ->
          status resp <> 200 ->
          fst (invoke environ ClientSession coerce_int backend self
                 (purchase_passes_call pass_id w q) st) =
            Raise (Exception ("Failed to purchase pass " ++ pass_id
                              ++ ", status code: "
                              ++ str_of_int (status resp)))).
Proof.
  intros environ ClientSession coerce_int backend self base st configured
    connected.
  split; [|split].
  - intros p resp Hreply Hstatus. rewrite invoke_list_passes.
    apply fst_bind_raise.
    now apply (list_passes_fails environ ClientSession backend self base
                 configured connected).
  - intros resp Hread Hstatus.
    exists "Failed to get the user's subsidy wallet: ".
    change (invoke environ ClientSession coerce_int backend self
              check_balances_call st)
      with ((balances <- check_balances environ ClientSession backend self ;;
             ret (JList (map JStr balances))) st).
    apply fst_bind_raise.
    rewrite (check_balances_eq environ ClientSession backend self base
               configured connected).
    cbv zeta. apply Z.eqb_neq in Hstatus.
    destruct Hread as [Hreply | [s [Hs [Hs200 Hreply]]]].
    + rewrite Hreply, Hstatus. reflexivity.
    + rewrite Hs, Hs200. cbn [Z.eqb Pos.eqb]. rewrite Hreply, Hstatus.
      reflexivity.
  - intros pass_id w q resp v Hreply Hjson Hstatus.
    rewrite invoke_purchase_passes.
    now apply (purchase_passes_fails environ ClientSession backend self base
                 configured connected pass_id w q st resp v).
Qed.

Lemma tool_failures_are_raised_witness :
  dict_get "MYRIDE_WALLET_API" the_environ = Some "https://wallet.example"
  /\ fst (invoke the_environ session_opens strict_int
            (always (mkResponse 503 "" (Some JNull))) rider
            (list_passes_call Regional) fresh) =
       Raise (Exception "Failed to list available passes, status code: 503")
  /\ (exists sentence : string,
        fst (invoke the_environ session_opens strict_int
               (always (mkResponse 503 "" (Some JNull))) rider
               check_balances_call fresh) =
          Raise (Exception (sentence ++ "503")))
  /\ fst (invoke the_environ session_opens strict_int
            (always (mkResponse 503 "" (Some JNull))) rider
            (purchase_passes_call "p123" Personal 1) fresh) =
       Raise (Exception "Failed to purchase pass p123, status code: 503").
Proof.
  split; [reflexivity|].
  destruct (tool_failures_are_raised the_environ session_opens strict_int
              (always (mkResponse 503 "" (Some JNull))) rider
              "https://wallet.example" fresh eq_refl eq_refl)
    as [Hlist [Hcheck Hbuy]].
  split; [|split].
  - apply (Hlist Regional (mkResponse 503 "" (Some JNull)) eq_refl).
    discriminate.
  - apply (Hcheck (mkResponse 503 "" (Some JNull)) (or_introl eq_refl)).
    discriminate.
  - apply (Hbuy "p123" Personal 1 (mkResponse 503 "" (Some JNull)) JNull
             eq_refl eq_refl).
    discriminate.
Defined.

(** ** C7: the provider is required *)

Lemma provider_of_string_name (p : provider) :
  provider_of_string (provider_name p) = Some p.
Proof. destruct p; reflexivity. Qed.

Lemma provider_of_string_unknown (s : string) :
  (forall p : provider, s <> provider_name p) -> provider_of_string s = None.
Proof.
  intros unknown. unfold provider_of_string.
  destruct (String.eqb_spec s "DDOT") as [E | _]; [now destruct (unknown
      DDOT)|].
  destruct (String.eqb_spec s "SMART") as [E | _];
    [now destruct (unknown SMART)|].
  destruct (String.eqb_spec s "Regional") as [E | _];
    [now destruct (unknown Regional)|].
  reflexivity.
Qed.

(** C7, refuted as stated.  A [list_passes] call without a provider is
    turned down. *)
Lemma list_passes_without_provider :
  ~ accepted (invoke the_environ session_opens strict_int (always (mkResponse
      200 "[]" None)) rider
                (mkCall ListPasses []) fresh).
Proof. intros ok. exact (ok "transit_provider" eq_refl). Qed.

(** C7, as the code has it.  [transit_provider] has no default: a call
    that leaves it out is turned down and no request is made, so there is no
    listing of all providers.  A call that gives one of the three known
    names runs [list_passes] on that provider; a call that gives any other
    string is turned down, again with no request. *)
Theorem list_passes_requires_provider :
  forall (environ : dict string)
         (ClientSession : string -> result unit)
         (coerce_int : json -> option Z)
         (backend : list request -> request -> reply)
         (self : FunctionAgent) (args : dict json) (st : state),
    let run := invoke environ ClientSession coerce_int backend self (mkCall
        ListPasses args) st in
    (dict_get "transit_provider" args = None ->
     run = (Raise (ValidationError "transit_provider"), st))
    /\ (forall s : string,
          dict_get "transit_provider" args = Some (JStr s) ->
          (forall p : provider,
              s = provider_name p ->
              run = (passes_data <- list_passes environ ClientSession backend
                  self p ;;
                     ret (JStr passes_data)) st)
          /\ ((forall p : provider, s <> provider_name p) ->
              run = (Raise (ValidationError "transit_provider"), st))).
Proof.
  intros environ ClientSession coerce_int backend self args st run. subst run.
  unfold invoke, arg_provider. cbn [call_tool call_args]. split.
  - intros absent. rewrite absent. reflexivity.
  - intros s given. rewrite given. split.
    + intros p ->. rewrite provider_of_string_name. reflexivity.
    + intros unknown. rewrite (provider_of_string_unknown s unknown).
      reflexivity.
Qed.

Lemma list_passes_requires_provider_witness :
  dict_get "transit_provider" (@nil (string * json)) = None /\
  invoke the_environ session_opens strict_int (always (mkResponse 200 "[]"
      None)) rider
    (mkCall ListPasses []) fresh =
    (Raise (ValidationError "transit_provider"), fresh).
Proof.
  split; [reflexivity|].
  exact (proj1 (list_passes_requires_provider the_environ session_opens
      strict_int
                  (always (mkResponse 200 "[]" None)) rider [] fresh)
           eq_refl).
Defined.

(** ** C9: the outcome of a purchase *)

(** C9, refuted as stated.  Two answers with status 402 and different
    bodies give the same failure: the body is not in it. *)
Lemma purchase_failure_drops_body :
  ~ outcome_carries_body (mkResponse 402 "[]" (Some (JList [])))
      (mkResponse 402 "{}" (Some (JObj []))).
Proof.
  intros carries. specialize (carries eq_refl). discriminate carries.
Qed.

(** C9, as the code has it.  With the base URL set and taken by the
    client, when the backend answers the purchase with a JSON document,
    [purchase_passes] has sent exactly one request; on status 200 it
    returns the parsed document; on any other status it raises an
    [Exception] whose message gives the pass id and the status code, and
    nothing of the body. *)
Theorem purchase_passes_by_status :
  forall (environ : dict string)
         (ClientSession : string -> result unit)
         (backend : list request -> request -> reply)
         (self : FunctionAgent) (base : string)
         (pass_id : string) (w : wallet_type) (q : Z) (st : state)
         (resp : response) (v : json),
    dict_get "MYRIDE_WALLET_API" environ = Some base ->
    ClientSession base = Ok tt ->
    backend (sent st) (purchase_request self base pass_id w q) =
      Response resp ->
    json_body resp = Some v ->
    let run := purchase_passes environ ClientSession backend self pass_id w q st
        in
    sent (snd run) = (sent st ++ [purchase_request self base pass_id w q])%list
    /\ (status resp = 200 -> fst run = Ok v)
    /\ (status resp <> 200 ->
        fst run =
          Raise (Exception ("Failed to purchase pass " ++ pass_id
                            ++ ", status code: "
                            ++ str_of_int (status resp)))).
Proof.
  intros environ ClientSession backend self base pass_id w q st resp v
      configured connected Hreply
    Hjson run. subst run. split; [|split].
  - now apply purchase_passes_sends.
  - intros Hstatus.
    now apply (purchase_passes_ok environ ClientSession backend self base
        configured connected
                 pass_id w q st resp v).
  - intros Hstatus.
    now apply (purchase_passes_fails environ ClientSession backend self base
        configured connected
                 pass_id w q st resp v).
Qed.

Lemma purchase_passes_by_status_witness :
  (purchase_outcome (mkResponse 200 "{}" (Some (JObj []))) = Ok (JObj []))
  /\ purchase_outcome (mkResponse 402 "{}" (Some (JObj []))) =
       Raise (Exception "Failed to purchase pass p123, status code: 402")
  /\ sent (snd (purchase_passes the_environ session_opens
                  (always (mkResponse 402 "{}" (Some (JObj []))))
                  rider "p123" Subsidy 2 fresh)) =
       [purchase_request rider "https://wallet.example" "p123" Subsidy 2].
Proof.
  pose proof (purchase_passes_by_status the_environ session_opens
                (always (mkResponse 200 "{}" (Some (JObj []))))
                rider "https://wallet.example" "p123" Subsidy 2 fresh
                (mkResponse 200 "{}" (Some (JObj []))) (JObj [])
                eq_refl eq_refl eq_refl eq_refl) as [_ [Hok _]].
  pose proof (purchase_passes_by_status the_environ session_opens
                (always (mkResponse 402 "{}" (Some (JObj []))))
                rider "https://wallet.example" "p123" Subsidy 2 fresh
                (mkResponse 402 "{}" (Some (JObj []))) (JObj [])
                eq_refl eq_refl eq_refl eq_refl) as [Hsent [_ Hfail]].
  split; [|split].
  - exact (Hok eq_refl).
  - apply Hfail. discriminate.
  - exact Hsent.
Defined.

(** * Further properties of the code *)

(** ** The requests of a computation, step by step *)

Section SendsOnly.

Variable P : request -> Prop.

Lemma sends_only_ret {A : Type} (a : A) : sends_only P (ret a).
Proof. intros st. exists []. rewrite app_nil_r. split;
    [reflexivity|constructor]. Qed.

Lemma sends_only_raise {A : Type} (e : exn) : sends_only P (@raise A e).
Proof. intros st. exists []. rewrite app_nil_r. split;
    [reflexivity|constructor]. Qed.

Lemma sends_only_of_result {A : Type} (r : result A) :
  sends_only P (of_result r).
Proof. destruct r; [apply sends_only_ret | apply sends_only_raise]. Qed.

Lemma sends_only_logger_info (l : logged) : sends_only P (logger_info l).
Proof. intros st. exists []. rewrite app_nil_r. split;
    [reflexivity|constructor]. Qed.

Lemma sends_only_print (s : string) : sends_only P (print s).
Proof. intros st. exists []. rewrite app_nil_r. split;
    [reflexivity|constructor]. Qed.

Lemma sends_only_bind {A B : Type} (m : M A) (k : A -> M B) :
  sends_only P m -> (forall a : A, sends_only P (k a)) ->
  sends_only P (bind m k).
Proof.
  intros Hm Hk st. unfold bind.
  destruct (Hm st) as [l [Hsent Hl]].
  destruct (m st) as [[a | e] st1]; cbn [snd] in *.
  - destruct (Hk a st1) as [l' [Hsent' Hl']].
    exists (l ++ l')%list. split.
    + rewrite Hsent', Hsent, app_assoc. reflexivity.
    + apply Forall_app. split; assumption.
  - exists l. split; assumption.
Qed.

Lemma sends_only_try_except {A : Type} (body : M A) (caught : exn -> bool)
  (handler : exn -> M A) :
  sends_only P body -> (forall e : exn, sends_only P (handler e)) ->
  sends_only P (try_except body caught handler).
Proof.
  intros Hbody Hhandler st. unfold try_except.
  destruct (Hbody st) as [l [Hsent Hl]].
  destruct (body st) as [[a | e] st1]; cbn [snd] in *.
  - exists l. split; assumption.
  - destruct (caught e).
    + destruct (Hhandler e st1) as [l' [Hsent' Hl']].
      exists (l ++ l')%list. split.
      * rewrite Hsent', Hsent, app_assoc. reflexivity.
      * apply Forall_app. split; assumption.
    + exists l. split; assumption.
Qed.

Variable environ : dict string.
Variable ClientSession : string -> result unit.
Variable coerce_int : json -> option Z.
Variable backend : list request -> request -> reply.

Lemma sends_only_session_request (r : request) :
  P r -> sends_only P (session_request backend r).
Proof.
  intros Hr st. exists [r]. unfold session_request.
  destruct (backend (sent st) r); split; try reflexivity;
    constructor; [assumption | constructor | assumption | constructor].
Qed.

(** A computation that starts by reading a variable of the environment
    needs its invariant only for the value that is there. *)
Lemma sends_only_with_environ {A : Type} (key : string) (k : string -> M A) :
  (forall v : string, dict_get key environ = Some v -> sends_only P (k v)) ->
  sends_only P (bind (os_environ environ key) k).
Proof.
  intros Hk st. unfold bind, os_environ.
  destruct (dict_get key environ) as [v |] eqn:Hget.
  - exact (Hk v eq_refl st).
  - exists []. rewrite app_nil_r. split; [reflexivity|constructor].
Qed.

Variable self : FunctionAgent.

Lemma list_passes_sends_only (p : provider) :
  (forall base : string,
      dict_get "MYRIDE_WALLET_API" environ = Some base ->
      P (passes_request self base p)) ->
  sends_only P (list_passes environ ClientSession backend self p).
Proof.
  intros HP. unfold list_passes.
  apply sends_only_bind; [apply sends_only_logger_info | intros _].
  apply sends_only_with_environ. intros base configured.
  apply sends_only_bind; [apply sends_only_of_result | intros _].
  apply sends_only_bind.
  - apply sends_only_session_request. exact (HP base configured).
  - intros resp. destruct (status resp =? 200).
    + apply sends_only_bind; [apply sends_only_logger_info | intros _].
      apply sends_only_ret.
    + apply sends_only_raise.
Qed.

Lemma read_wallets_sends_only (base : string) (wallets balances : list string) :
  (forall i : string, In i wallets -> P (wallet_request self base i)) ->
  sends_only P
    (read_wallets backend base (read_headers self) paging wallets balances).
Proof.
  revert balances. induction wallets as [| i wallets IH]; intros balances HP.
  - apply sends_only_ret.
  - cbn [read_wallets]. apply sends_only_bind.
    + apply sends_only_session_request. apply HP. left. reflexivity.
    + intros resp. destruct (status resp =? 200).
      * apply sends_only_bind; [apply sends_only_logger_info | intros _].
        apply IH. intros j Hj. apply HP. right. exact Hj.
      * apply sends_only_raise.
Qed.

Lemma check_balances_sends_only :
  (forall base i : string,
      dict_get "MYRIDE_WALLET_API" environ = Some base ->
      In i ["subsidy"; "personal"] ->
      P (wallet_request self base i)) ->
  sends_only P (check_balances environ ClientSession backend self).
Proof.
  intros HP. unfold check_balances.
  apply sends_only_bind; [apply sends_only_logger_info | intros _].
  apply sends_only_with_environ. intros base configured.
  apply sends_only_bind; [apply sends_only_of_result | intros _].
  apply sends_only_bind.
  - apply (read_wallets_sends_only base ["subsidy"; "personal"] []).
    intros i Hi. exact (HP base i configured Hi).
  - intros balances.
    apply sends_only_bind; [apply sends_only_logger_info | intros _].
    apply sends_only_ret.
Qed.

Lemma purchase_passes_sends_only (pass_id : string) (w : wallet_type) (q : Z) :
  (forall base : string,
      dict_get "MYRIDE_WALLET_API" environ = Some base ->
      P (purchase_request self base pass_id w q)) ->
  sends_only P (purchase_passes environ ClientSession backend self pass_id w q).
Proof.
  intros HP. unfold purchase_passes.
  apply sends_only_bind; [apply sends_only_logger_info | intros _].
  apply sends_only_bind; [apply sends_only_logger_info | intros _].
  apply sends_only_with_environ. intros base configured.
  apply sends_only_bind; [apply sends_only_of_result | intros _].
  apply sends_only_bind.
  - apply sends_only_session_request. exact (HP base configured).
  - intros resp. unfold response_json.
    apply sends_only_bind.
    + destruct (json_body resp); [apply sends_only_ret | apply
        sends_only_raise].
    + intros v.
      apply sends_only_bind; [apply sends_only_logger_info | intros _].
      destruct (status resp =? 200).
      * apply sends_only_bind.
        -- destruct (json_body resp);
             [apply sends_only_ret | apply sends_only_raise].
        -- intros v'.
           apply sends_only_bind; [apply sends_only_logger_info | intros _].
           apply sends_only_ret.
      * apply sends_only_raise.
Qed.

(** A call sends only requests of its own tool. *)
Lemma invoke_sends_only (c : tool_call) :
  (call_tool c = ListPasses ->
   forall (base : string) (p : provider),
     dict_get "MYRIDE_WALLET_API" environ = Some base ->
     P (passes_request self base p)) ->
  (call_tool c = CheckBalances ->
   forall base i : string,
     dict_get "MYRIDE_WALLET_API" environ = Some base ->
     In i ["subsidy"; "personal"] ->
     P (wallet_request self base i)) ->
  (call_tool c = PurchasePasses ->
   forall (base pass_id : string) (w : wallet_type) (q : Z),
     dict_get "MYRIDE_WALLET_API" environ = Some base ->
     P (purchase_request self base pass_id w q)) ->
  sends_only P (invoke environ ClientSession coerce_int backend self c).
Proof.
  intros Hlist Hcheck Hbuy. unfold invoke.
  destruct (call_tool c).
  - apply sends_only_bind; [apply sends_only_of_result | intros p].
    apply sends_only_bind; [|intros s; apply sends_only_ret].
    apply list_passes_sends_only. intros base. exact (Hlist eq_refl base p).
  - apply sends_only_bind; [|intros b; apply sends_only_ret].
    apply check_balances_sends_only. exact (Hcheck eq_refl).
  - apply sends_only_bind; [apply sends_only_of_result | intros pass_id].
    apply sends_only_bind; [apply sends_only_of_result | intros w].
    apply sends_only_bind; [apply sends_only_of_result | intros q].
    apply purchase_passes_sends_only. intros base.
    exact (Hbuy eq_refl base pass_id w q).
Qed.

Lemma run_session_sends_only (calls : list tool_call) :
  (forall c : tool_call, In c calls ->
     sends_only P (invoke environ ClientSession coerce_int backend self c)) ->
  forall st : state,
    exists l : list request,
      sent (snd (run_session environ ClientSession coerce_int backend self calls
          st)) =
        (sent st ++ l)%list /\ Forall P l.
Proof.
  induction calls as [| c calls IH]; intros Hcalls st.
  - exists []. rewrite app_nil_r. split; [reflexivity|constructor].
  - cbn [run_session].
    destruct (Hcalls c (or_introl eq_refl) st) as [l [Hsent Hl]].
    destruct (invoke environ ClientSession coerce_int backend self c st) as [r
        st1]. cbn [snd] in *.
    destruct (IH (fun c' Hc' => Hcalls c' (or_intror Hc')) st1)
      as [l' [Hsent' Hl']].
    destruct (run_session environ ClientSession coerce_int backend self calls
        st1) as [rs st2].
    cbn [snd] in *. exists (l ++ l')%list. split.
    + rewrite Hsent', Hsent, app_assoc. reflexivity.
    + apply Forall_app. split; assumption.
Qed.

End SendsOnly.

(** ** When the client does not take the base URL *)

Section Refused.

Variable environ : dict string.
Variable ClientSession : string -> result unit.
Variable backend : list request -> request -> reply.
Variable self : FunctionAgent.
Variable base : string.
Variable e : exn.
Hypothesis configured : dict_get "MYRIDE_WALLET_API" environ = Some base.
Hypothesis refused : ClientSession base = Raise e.

Lemma list_passes_refused (p : provider) (st : state) :
  list_passes environ ClientSession backend self p st =
    (Raise e,
     mkState (sent st)
       (out st ++ [LogInfo (LStr ("getting available passes for "
                                  ++ provider_name p))])).
Proof.
  unfold list_passes, bind, os_environ, of_result. rewrite configured.
  unfold ret at 1. cbv beta iota. rewrite refused. reflexivity.
Qed.

Lemma check_balances_refused (st : state) :
  check_balances environ ClientSession backend self st =
    (Raise e,
     mkState (sent st) (out st ++ [LogInfo (LStr "Checking user's wallets")])).
Proof.
  unfold check_balances, bind, os_environ, of_result. rewrite configured.
  unfold ret at 1. cbv beta iota. rewrite refused. reflexivity.
Qed.

Lemma purchase_passes_refused (pass_id : string) (w : wallet_type) (q : Z)
  (st : state) :
  purchase_passes environ ClientSession backend self pass_id w q st =
    (Raise e,
     mkState (sent st)
       ((out st ++ [LogInfo (LStr ("Purchasing pass: " ++ pass_id))]) ++
        [LogInfo (LObj (purchase_payload pass_id w q))])).
Proof.
  unfold purchase_passes, bind, os_environ, of_result. rewrite configured.
  unfold ret at 1. cbv beta iota. rewrite refused. reflexivity.
Qed.

End Refused.

(** X20.  When [aiohttp.ClientSession] does not take the base URL found in
    MYRIDE_WALLET_API and raises, each tool raises that exception and sends
    nothing: the session is built on every call, after the first log lines
    and before the request. *)
Theorem tools_need_usable_base :
  forall (environ : dict string)
         (ClientSession : string -> result unit)
         (backend : list request -> request -> reply)
         (self : FunctionAgent) (base : string) (e : exn) (st : state),
    dict_get "MYRIDE_WALLET_API" environ = Some base ->
    ClientSession base = Raise e ->
    (forall p : provider,
        fst (list_passes environ ClientSession backend self p st) = Raise e /\
        sent (snd (list_passes environ ClientSession backend self p st)) =
          sent st)
    /\ (fst (check_balances environ ClientSession backend self st) = Raise e /\
        sent (snd (check_balances environ ClientSession backend self st)) =
          sent st)
    /\ (forall (pass_id : string) (w : wallet_type) (q : Z),
          fst (purchase_passes environ ClientSession backend self pass_id w q
                 st) = Raise e /\
          sent (snd (purchase_passes environ ClientSession backend self
                       pass_id w q st)) = sent st).
Proof.
  intros environ ClientSession backend self base e st configured refused.
  split; [|split].
  - intros p.
    rewrite (list_passes_refused environ ClientSession backend self base e
               configured refused).
    split; reflexivity.
  - rewrite (check_balances_refused environ ClientSession backend self base e
               configured refused).
    split; reflexivity.
  - intros pass_id w q.
    rewrite (purchase_passes_refused environ ClientSession backend self base e
               configured refused).
    split; reflexivity.
Qed.

Lemma tools_need_usable_base_witness :
  fst (purchase_passes [("MYRIDE_WALLET_API", "http://127.0.0.1:18765/v1")]
         (fun _ => Raise (ValueError "base_url must end with a slash"))
         (always (mkResponse 200 "{}" (Some (JObj [])))) rider
         "p123" Subsidy 2 fresh) =
    Raise (ValueError "base_url must end with a slash")
  /\ sent (snd (purchase_passes
                  [("MYRIDE_WALLET_API", "http://127.0.0.1:18765/v1")]
                  (fun _ => Raise (ValueError "base_url must end with a slash"))
                  (always (mkResponse 200 "{}" (Some (JObj [])))) rider
                  "p123" Subsidy 2 fresh)) = [].
Proof.
  exact (proj2 (proj2 (tools_need_usable_base
                         [("MYRIDE_WALLET_API", "http://127.0.0.1:18765/v1")]
                         (fun _ => Raise (ValueError
                             "base_url must end with a slash"))
                         (always (mkResponse 200 "{}" (Some (JObj []))))
                         rider "http://127.0.0.1:18765/v1"
                         (ValueError "base_url must end with a slash") fresh
                         eq_refl eq_refl))
           "p123" Subsidy 2).
Defined.

(** ** Configuration *)

(** X1.  Without MYRIDE_WALLET_API in the environment each tool raises
    [KeyError] for that name and sends nothing: the variable is read on
    every call, after the first log line and before the request. *)
Theorem tools_need_base_url :
  forall (environ : dict string)
         (ClientSession : string -> result unit)
         (backend : list request -> request -> reply)
         (self : FunctionAgent) (st : state),
    dict_get "MYRIDE_WALLET_API" environ = None ->
    (forall p : provider,
        fst (list_passes environ ClientSession backend self p st) =
          Raise (KeyError "MYRIDE_WALLET_API") /\
        sent (snd (list_passes environ ClientSession backend self p st)) = sent
            st)
    /\ (fst (check_balances environ ClientSession backend self st) =
          Raise (KeyError "MYRIDE_WALLET_API") /\
        sent (snd (check_balances environ ClientSession backend self st)) = sent
            st)
    /\ (forall (pass_id : string) (w : wallet_type) (q : Z),
          fst (purchase_passes environ ClientSession backend self pass_id w q
              st) =
            Raise (KeyError "MYRIDE_WALLET_API") /\
          sent (snd (purchase_passes environ ClientSession backend self pass_id
              w q st)) =
            sent st).
Proof.
  intros environ ClientSession backend self st missing. split; [|split].
  - intros p. unfold list_passes, bind, os_environ. rewrite missing.
    split; reflexivity.
  - unfold check_balances, bind, os_environ. rewrite missing.
    split; reflexivity.
  - intros pass_id w q. unfold purchase_passes, bind, os_environ.
    rewrite missing. split; reflexivity.
Qed.

Lemma tools_need_base_url_witness :
  dict_get "MYRIDE_WALLET_API" (@nil (string * string)) = None /\
  fst (check_balances [] session_opens (always (mkResponse 200 "0" None)) rider
      fresh) =
    Raise (KeyError "MYRIDE_WALLET_API").
Proof.
  split; [reflexivity|].
  exact (proj1 (proj1 (proj2 (tools_need_base_url [] session_opens
                                (always (mkResponse 200 "0" None)) rider fresh
                                eq_refl)))).
Defined.

(** ** What every request carries *)

(** X2.  In any conversation, whatever the calls and their arguments,
    every request that goes out carries the header
    [authorization: Bearer <auth_key of the agent>] and is addressed to the
    base URL found in MYRIDE_WALLET_API. *)
Theorem requests_carry_token_and_base :
  forall (environ : dict string)
         (ClientSession : string -> result unit)
         (coerce_int : json -> option Z)
         (backend : list request -> request -> reply)
         (self : FunctionAgent) (calls : list tool_call) (st : state),
    Forall
      (fun r : request =>
         authorization r =
           Some ("Bearer " ++ str_of_optional (auth_key self)) /\
         dict_get "MYRIDE_WALLET_API" environ = Some (req_base r))
      (issued st (run_session environ ClientSession coerce_int backend self
          calls st)).
Proof.
  intros environ ClientSession coerce_int backend self calls st.
  destruct (run_session_sends_only
              (fun r : request =>
                 authorization r =
                   Some ("Bearer " ++ str_of_optional (auth_key self)) /\
                 dict_get "MYRIDE_WALLET_API" environ = Some (req_base r))
              environ ClientSession coerce_int backend self calls) with (st :=
                  st)
    as [l [Hsent Hl]].
  - intros c _. apply invoke_sends_only.
    + intros _ base p configured. split; [reflexivity | exact configured].
    + intros _ base i configured _. split; [reflexivity | exact configured].
    + intros _ base pass_id w q configured.
      split; [reflexivity | exact configured].
  - unfold issued. rewrite Hsent, skipn_app, skipn_all, Nat.sub_diag.
    exact Hl.
Qed.

(** X3.  A conversation in which [purchase_passes] is not called sends
    GET requests only: listing passes and checking balances never write to
    the backend. *)
Theorem reads_send_no_post :
  forall (environ : dict string)
         (ClientSession : string -> result unit)
         (coerce_int : json -> option Z)
         (backend : list request -> request -> reply)
         (self : FunctionAgent) (calls : list tool_call) (st : state),
    (forall c : tool_call, In c calls -> call_tool c <> PurchasePasses) ->
    Forall (fun r : request => req_method r = GET)
      (issued st (run_session environ ClientSession coerce_int backend self
          calls st)).
Proof.
  intros environ ClientSession coerce_int backend self calls st no_purchase.
  destruct (run_session_sends_only (fun r : request => req_method r = GET)
              environ ClientSession coerce_int backend self calls) with (st :=
                  st)
    as [l [Hsent Hl]].
  - intros c Hc. apply invoke_sends_only.
    + intros _ base p _. reflexivity.
    + intros _ base i _ _. reflexivity.
    + intros Hbuy. destruct (no_purchase c Hc Hbuy).
  - unfold issued. rewrite Hsent, skipn_app, skipn_all, Nat.sub_diag.
    exact Hl.
Qed.

Lemma reads_send_no_post_witness :
  Forall (fun r : request => req_method r = GET)
    (issued fresh
       (run_session the_environ session_opens strict_int (always (mkResponse 200
           "[]" None)) rider
          [list_passes_call DDOT; check_balances_call] fresh)).
Proof.
  apply (reads_send_no_post the_environ session_opens strict_int (always
      (mkResponse 200 "[]" None))
           rider [list_passes_call DDOT; check_balances_call] fresh).
  intros c [<- | [<- | []]]; discriminate.
Defined.

(** X4.  With the base URL set and taken by the client, calling
    [purchase_passes] twice with the same arguments sends the same purchase
    twice: nothing in the tool remembers or recognises an earlier
    purchase. *)
Theorem purchase_repeated_is_sent_again :
  forall (environ : dict string)
         (ClientSession : string -> result unit)
         (coerce_int : json -> option Z)
         (backend : list request -> request -> reply)
         (self : FunctionAgent) (base : string)
         (pass_id : string) (w : wallet_type) (q : Z) (st : state),
    dict_get "MYRIDE_WALLET_API" environ = Some base ->
    ClientSession base = Ok tt ->
    sent (snd (run_session environ ClientSession coerce_int backend self
                 [purchase_passes_call pass_id w q;
                  purchase_passes_call pass_id w q] st)) =
      (sent st ++ [purchase_request self base pass_id w q;
                   purchase_request self base pass_id w q])%list.
Proof.
  intros environ ClientSession coerce_int backend self base pass_id w q st
      configured connected.
  cbn [run_session]. rewrite invoke_purchase_passes.
  pose proof (purchase_passes_sends environ ClientSession backend self base
      configured connected
                pass_id w q st) as Hfirst.
  destruct (purchase_passes environ ClientSession backend self pass_id w q st)
      as [r1 st1].
  cbn [snd] in Hfirst. rewrite invoke_purchase_passes.
  pose proof (purchase_passes_sends environ ClientSession backend self base
      configured connected
                pass_id w q st1) as Hsecond.
  destruct (purchase_passes environ ClientSession backend self pass_id w q st1)
      as [r2 st2].
  cbn [snd] in *. rewrite Hsecond, Hfirst, <- app_assoc. reflexivity.
Qed.

Lemma purchase_repeated_is_sent_again_witness :
  dict_get "MYRIDE_WALLET_API" the_environ = Some "https://wallet.example" /\
  length (sent (snd (run_session the_environ session_opens strict_int
                       (always (mkResponse 200 "{}" (Some (JObj []))))
                       rider
                       [purchase_passes_call "p123" Subsidy 2;
                        purchase_passes_call "p123" Subsidy 2] fresh))) = 2%nat.
Proof.
  split; [reflexivity|].
  rewrite (purchase_repeated_is_sent_again the_environ session_opens strict_int
             (always (mkResponse 200 "{}" (Some (JObj []))))
             rider "https://wallet.example" "p123" Subsidy 2 fresh eq_refl
             eq_refl).
  reflexivity.
Defined.

(** ** When the backend cannot be reached, or answers something else *)

(** X5.  With the base URL set and taken by the client, when the client
    raises instead of answering a request, the tool lets that exception
    through unchanged and does not ask again: one request for
    [list_passes] and for [purchase_passes]. *)
Theorem transport_failure_is_not_retried :
  forall (environ : dict string)
         (ClientSession : string -> result unit)
         (backend : list request -> request -> reply)
         (self : FunctionAgent) (base : string) (st : state) (why : string),
    dict_get "MYRIDE_WALLET_API" environ = Some base ->
    ClientSession base = Ok tt ->
    (forall p : provider,
        backend (sent st) (passes_request self base p) = Unreachable why ->
        fst (list_passes environ ClientSession backend self p st) = Raise
            (ClientError why)
        /\ sent (snd (list_passes environ ClientSession backend self p st)) =
             (sent st ++ [passes_request self base p])%list)
    /\ (forall (pass_id : string) (w : wallet_type) (q : Z),
          backend (sent st) (purchase_request self base pass_id w q) =
            Unreachable why ->
          fst (purchase_passes environ ClientSession backend self pass_id w q
              st) =
            Raise (ClientError why)
          /\ sent (snd (purchase_passes environ ClientSession backend self
              pass_id w q st)) =
               (sent st ++ [purchase_request self base pass_id w q])%list).
Proof.
  intros environ ClientSession backend self base st why configured connected.
      split.
  - intros p Hreply.
    rewrite (list_passes_eq environ ClientSession backend self base configured
        connected).
    cbv zeta. rewrite Hreply. split; reflexivity.
  - intros pass_id w q Hreply.
    rewrite (purchase_passes_eq environ ClientSession backend self base
        configured connected).
    cbv zeta. rewrite Hreply. split; reflexivity.
Qed.

Lemma transport_failure_is_not_retried_witness :
  dict_get "MYRIDE_WALLET_API" the_environ = Some "https://wallet.example" /\
  fst (purchase_passes the_environ session_opens (fun _ _ => Unreachable
      "timeout") rider
         "p123" Subsidy 2 fresh) = Raise (ClientError "timeout").
Proof.
  split; [reflexivity|].
  exact (proj1 (proj2 (transport_failure_is_not_retried the_environ
      session_opens
                         (fun _ _ => Unreachable "timeout") rider
                         "https://wallet.example" fresh "timeout" eq_refl
                         eq_refl)
                  "p123" Subsidy 2 eq_refl)).
Defined.

(** X6.  With the base URL set and taken by the client, when the personal
    wallet cannot be reached after the subsidy wallet answered 200,
    [check_balances] raises the client's exception:
    the subsidy balance already read is written to the log but not
    returned. *)
Theorem check_balances_second_read_unreachable :
  forall (environ : dict string)
         (ClientSession : string -> result unit)
         (backend : list request -> request -> reply)
         (self : FunctionAgent) (base : string) (st : state)
         (s : response) (why : string),
    dict_get "MYRIDE_WALLET_API" environ = Some base ->
    ClientSession base = Ok tt ->
    backend (sent st) (wallet_request self base "subsidy") = Response s ->
    status s = 200 ->
    backend (sent st ++ [wallet_request self base "subsidy"])%list
      (wallet_request self base "personal") = Unreachable why ->
    fst (check_balances environ ClientSession backend self st) = Raise
        (ClientError why)
    /\ out (snd (check_balances environ ClientSession backend self st)) =
         (out st ++ [LogInfo (LStr "Checking user's wallets");
                     LogInfo (LStr (text s))])%list.
Proof.
  intros environ ClientSession backend self base st s why configured connected
      Hs Hs200 Hp.
  rewrite (check_balances_eq environ ClientSession backend self base configured
      connected).
  cbv zeta. rewrite Hs, Hs200. cbn [Z.eqb Pos.eqb]. rewrite Hp.
  split; [reflexivity|]. cbn [snd out]. rewrite <- app_assoc. reflexivity.
Qed.

Lemma check_balances_second_read_unreachable_witness :
  fst (check_balances the_environ session_opens
         (fun _ r =>
            if String.eqb (req_url r) "api/rider/subsidy-wallet"
            then Response (mkResponse 200 "50" None)
            else Unreachable "connection reset")
         rider fresh) = Raise (ClientError "connection reset").
Proof.
  exact (proj1 (check_balances_second_read_unreachable the_environ session_opens
                  (fun _ r =>
                     if String.eqb (req_url r) "api/rider/subsidy-wallet"
                     then Response (mkResponse 200 "50" None)
                     else Unreachable "connection reset")
                  rider "https://wallet.example" fresh
                  (mkResponse 200 "50" None) "connection reset"
                  eq_refl eq_refl eq_refl eq_refl eq_refl)).
Defined.

(** X7.  The body of the purchase answer is parsed as JSON for a log line
    before the status is looked at.  So when the body is not JSON the tool
    raises on parsing, whatever the status: a status 200 returns no
    confirmation, and another status is not reported by the
    "Failed to purchase pass" exception.  The purchase request has been
    sent (the base URL being set and taken by the client). *)
Theorem purchase_unparsed_answer_raises :
  forall (environ : dict string)
         (ClientSession : string -> result unit)
         (backend : list request -> request -> reply)
         (self : FunctionAgent) (base : string)
         (pass_id : string) (w : wallet_type) (q : Z) (st : state)
         (resp : response),
    dict_get "MYRIDE_WALLET_API" environ = Some base ->
    ClientSession base = Ok tt ->
    backend (sent st) (purchase_request self base pass_id w q) =
      Response resp ->
    json_body resp = None ->
    (exists why : string,
        fst (purchase_passes environ ClientSession backend self pass_id w q st)
            =
          Raise (ClientError why))
    /\ sent (snd (purchase_passes environ ClientSession backend self pass_id w q
        st)) =
         (sent st ++ [purchase_request self base pass_id w q])%list.
Proof.
  intros environ ClientSession backend self base pass_id w q st resp configured
      connected Hreply
    Hjson.
  rewrite (purchase_passes_eq environ ClientSession backend self base configured
      connected).
  cbv zeta. rewrite Hreply, Hjson. split; [eexists|]; reflexivity.
Qed.

Lemma purchase_unparsed_answer_raises_witness :
  exists why : string,
    fst (purchase_passes the_environ session_opens (always (mkResponse 200 "OK"
        None)) rider
           "p123" Subsidy 2 fresh) = Raise (ClientError why).
Proof.
  exact (proj1 (purchase_unparsed_answer_raises the_environ session_opens
                  (always (mkResponse 200 "OK" None)) rider
                  "https://wallet.example" "p123" Subsidy 2 fresh
                  (mkResponse 200 "OK" None) eq_refl eq_refl eq_refl
                  eq_refl)).
Defined.

(** ** The arguments of purchase_passes *)

(** X8.  [quantity] has the default 1: a [purchase_passes] call that gives
    a pass id and a wallet type and no quantity is the purchase of one
    pass. *)
Theorem purchase_quantity_defaults_to_one :
  forall (environ : dict string)
         (ClientSession : string -> result unit)
         (coerce_int : json -> option Z)
         (backend : list request -> request -> reply)
         (self : FunctionAgent) (args : dict json)
         (pass_id : string) (w : wallet_type) (st : state),
    dict_get "pass_id" args = Some (JStr pass_id) ->
    dict_get "type_of_wallet" args = Some (JStr (wallet_type_name w)) ->
    dict_get "quantity" args = None ->
    invoke environ ClientSession coerce_int backend self (mkCall PurchasePasses
        args) st =
      purchase_passes environ ClientSession backend self pass_id w 1 st.
Proof.
  intros environ ClientSession coerce_int backend self args pass_id w st Hid
      Hwallet Hquantity.
  unfold invoke, arg_str, arg_wallet_type, arg_int_default, bind, of_result.
  cbn [call_tool call_args]. rewrite Hid, Hwallet, Hquantity.
  destruct w; reflexivity.
Qed.

Lemma purchase_quantity_defaults_to_one_witness :
  invoke the_environ session_opens strict_int (always (mkResponse 200 "{}" (Some
      (JObj [])))) rider
    (mkCall PurchasePasses
       [("pass_id", JStr "p123"); ("type_of_wallet", JStr "Personal")])
    fresh =
  purchase_passes the_environ session_opens (always (mkResponse 200 "{}" (Some
      (JObj []))))
    rider "p123" Personal 1 fresh.
Proof.
  exact (purchase_quantity_defaults_to_one the_environ session_opens strict_int
           (always (mkResponse 200 "{}" (Some (JObj [])))) rider
           [("pass_id", JStr "p123"); ("type_of_wallet", JStr "Personal")]
           "p123" Personal fresh eq_refl eq_refl eq_refl).
Defined.

(** X9.  [pass_id] and [type_of_wallet] have no default: a
    [purchase_passes] call that leaves one of them out is turned down
    before the body of the tool runs, so nothing is logged and nothing is
    sent. *)
Theorem purchase_requires_pass_and_wallet :
  forall (environ : dict string)
         (ClientSession : string -> result unit)
         (coerce_int : json -> option Z)
         (backend : list request -> request -> reply)
         (self : FunctionAgent) (args : dict json) (st : state),
    dict_get "pass_id" args = None \/ dict_get "type_of_wallet" args = None ->
    exists param : string,
      invoke environ ClientSession coerce_int backend self (mkCall
          PurchasePasses args) st =
        (Raise (ValidationError param), st).
Proof.
  intros environ ClientSession coerce_int backend self args st [Hid | Hwallet].
  - exists "pass_id".
    unfold invoke, arg_str, bind, of_result. cbn [call_tool call_args].
    rewrite Hid. reflexivity.
  - unfold invoke, arg_str, arg_wallet_type, bind, of_result.
    cbn [call_tool call_args]. rewrite Hwallet.
    destruct (dict_get "pass_id" args) as [[| | | s | |] |];
      eexists; reflexivity.
Qed.

Lemma purchase_requires_pass_and_wallet_witness :
  exists param : string,
    invoke the_environ session_opens strict_int (always (mkResponse 200 "{}"
        (Some (JObj [])))) rider
      (mkCall PurchasePasses [("quantity", JInt 2)]) fresh =
      (Raise (ValidationError param), fresh).
Proof.
  apply (purchase_requires_pass_and_wallet the_environ session_opens strict_int
           (always (mkResponse 200 "{}" (Some (JObj [])))) rider
           [("quantity", JInt 2)] fresh).
  left. reflexivity.
Defined.

(** ** load_prompt on the two errors it catches *)



(** ** load_prompt beyond the two caught errors *)

(** X10.  When the prompt file parses to a mapping, [load_prompt] returns
    what is under 'instructions', whatever kind of value it is, and the
    empty string when the key is absent; in both cases without printing
    anything. *)
Theorem load_prompt_reads_mapping :
  forall (open_read : string -> result string)
         (yaml_safe_load : string -> result json)
         (filename content : string) (fields : dict json) (st : state),
    open_read filename = Ok content ->
    yaml_safe_load content = Ok (JObj fields) ->
    load_prompt open_read yaml_safe_load filename st =
      (Ok (match dict_get "instructions" fields with
           | Some v => v
           | None => JStr ""
           end), st).
Proof.
  intros open_read yaml_safe_load filename content fields st Hread Hyaml.
  unfold load_prompt, try_except, bind, of_result. rewrite Hread.
  unfold ret. rewrite Hyaml. cbn [get_instructions].
  destruct (dict_get "instructions" fields); reflexivity.
Qed.

Lemma load_prompt_reads_mapping_witness :
  load_prompt (fun _ => Ok "greeting: hello")
    (fun _ => Ok (JObj [("greeting", JStr "hello")]))
    "support_agent.yaml" fresh = (Ok (JStr ""), fresh).
Proof.
  exact (load_prompt_reads_mapping (fun _ => Ok "greeting: hello")
           (fun _ => Ok (JObj [("greeting", JStr "hello")]))
           "support_agent.yaml" "greeting: hello"
           [("greeting", JStr "hello")] fresh eq_refl eq_refl).
Defined.

(** X11.  [load_prompt] catches FileNotFoundError and YAMLError and
    nothing else.  Any other exception raised while opening or parsing the
    file, and the AttributeError of [.get] on a document that is not a
    mapping (an empty file, a list, a scalar), leaves [load_prompt] as it
    is, with nothing printed. *)
Theorem load_prompt_lets_other_errors_through :
  forall (open_read : string -> result string)
         (yaml_safe_load : string -> result json)
         (filename : string) (e : exn) (st : state),
    prompt_errors e = false ->
    open_read filename = Raise e \/
    (exists content : string,
        open_read filename = Ok content /\
        (yaml_safe_load content = Raise e \/
         exists v : json,
           yaml_safe_load content = Ok v /\
           (forall fields : dict json, v <> JObj fields) /\
           e = AttributeError "object has no attribute 'get'")) ->
    load_prompt open_read yaml_safe_load filename st = (Raise e, st).
Proof.
  intros open_read yaml_safe_load filename e st uncaught
    [Hopen | [content [Hread [Hyaml | [v [Hyaml [shape ->]]]]]]];
    unfold load_prompt, try_except, bind, of_result.
  - rewrite Hopen. unfold raise. rewrite uncaught. reflexivity.
  - rewrite Hread. unfold ret. rewrite Hyaml.
    unfold raise. rewrite uncaught. reflexivity.
  - rewrite Hread. unfold ret. rewrite Hyaml.
    destruct v; try reflexivity. destruct (shape fields eq_refl).
Qed.

Lemma load_prompt_lets_other_errors_through_witness :
  load_prompt (fun _ => Ok "- a list") (fun _ => Ok (JList [JStr "a list"]))
    "support_agent.yaml" fresh =
    (Raise (AttributeError "object has no attribute 'get'"), fresh).
Proof.
  apply (load_prompt_lets_other_errors_through (fun _ => Ok "- a list")
           (fun _ => Ok (JList [JStr "a list"])) "support_agent.yaml"
           (AttributeError "object has no attribute 'get'") fresh eq_refl).
  right. exists "- a list". split; [reflexivity|]. right.
  exists (JList [JStr "a list"]).
  split; [reflexivity|]. split; [|reflexivity].
  intros fields. discriminate.
Defined.

(** ** What a failure tells *)

(** X12.  The exception [check_balances] raises for a status other than
    200 does not tell the wallets apart: a subsidy read answered with some
    status and a personal read answered with the same status, after a good
    subsidy read, raise the same exception. *)
Theorem check_balances_failure_hides_wallet :
  forall (environ : dict string)
         (ClientSession : string -> result unit)
         (backend1 backend2 : list request -> request -> reply)
         (self : FunctionAgent) (base : string) (st1 st2 : state)
         (a s p : response),
    dict_get "MYRIDE_WALLET_API" environ = Some base ->
    backend1 (sent st1) (wallet_request self base "subsidy") = Response a ->
    status a <> 200 ->
    backend2 (sent st2) (wallet_request self base "subsidy") = Response s ->
    status s = 200 ->
    backend2 (sent st2 ++ [wallet_request self base "subsidy"])%list
      (wallet_request self base "personal") = Response p ->
    status p = status a ->
    fst (check_balances environ ClientSession backend1 self st1) =
      fst (check_balances environ ClientSession backend2 self st2).
Proof.
  intros environ ClientSession backend1 backend2 self base st1 st2 a s p
    configured Ha Hbad Hs Hs200 Hp Hsame.
  destruct (ClientSession base) as [[] | e] eqn:connected.
  - rewrite !(check_balances_eq environ ClientSession _ self base configured
                connected).
    cbv zeta. rewrite Ha, Hs, Hs200. cbn [Z.eqb Pos.eqb]. rewrite Hp, Hsame.
    apply Z.eqb_neq in Hbad. rewrite Hbad. reflexivity.
  - rewrite !(check_balances_refused environ ClientSession _ self base e
                configured connected).
    reflexivity.
Qed.

Lemma check_balances_failure_hides_wallet_witness :
  fst (check_balances the_environ session_opens
         (wallets_backend (mkResponse 503 "" None) (mkResponse 200 "40" None)
            (mkResponse 404 "" None)) rider fresh) =
  fst (check_balances the_environ session_opens
         (wallets_backend (mkResponse 200 "0" None) (mkResponse 503 "" None)
            (mkResponse 404 "" None)) rider fresh).
Proof.
  apply (check_balances_failure_hides_wallet the_environ session_opens
           (wallets_backend (mkResponse 503 "" None) (mkResponse 200 "40" None)
              (mkResponse 404 "" None))
           (wallets_backend (mkResponse 200 "0" None) (mkResponse 503 "" None)
              (mkResponse 404 "" None))
           rider "https://wallet.example" fresh fresh
           (mkResponse 503 "" None) (mkResponse 200 "0" None)
           (mkResponse 503 "" None));
    try reflexivity.
  discriminate.
Defined.

Lemma int_of_str_of_int (z : Z) : int_of_str (str_of_int z) = Some z.
Proof.
  unfold int_of_str, str_of_int.
  rewrite NilZero.isi.
  - cbn [option_map]. rewrite DecimalZ.of_to. reflexivity.
  - destruct z; cbn [Z.to_int]; try discriminate.
    intros [= H]. exact (DecimalPos.Unsigned.to_uint_nonnil _ H).
  - destruct z; cbn [Z.to_int]; try discriminate.
    intros [= H]. exact (DecimalPos.Unsigned.to_uint_nonnil _ H).
Qed.

Lemma str_of_int_inj (z z' : Z) : str_of_int z = str_of_int z' -> z = z'.
Proof.
  intros H. apply (f_equal int_of_str) in H.
  rewrite !int_of_str_of_int in H. now injection H.
Qed.

Lemma append_cancel_l (p a b : string) : p ++ a = p ++ b -> a = b.
Proof.
  induction p as [| c p IH]; cbn [append]; intros H.
  - exact H.
  - injection H as H. exact (IH H).
Qed.

(** X13.  Once the client has taken the base URL, the status code is in
    the failure and can be read back from it: two answers to
    [list_passes], or two answers with a JSON body to the same
    [purchase_passes] call, that are refused with different status codes
    raise different exceptions. *)
Theorem failure_tells_status :
  forall (environ : dict string)
         (ClientSession : string -> result unit)
         (backend1 backend2 : list request -> request -> reply)
         (self : FunctionAgent) (base : string) (st1 st2 : state)
         (resp1 resp2 : response),
    dict_get "MYRIDE_WALLET_API" environ = Some base ->
    ClientSession base = Ok tt ->
    status resp1 <> 200 -> status resp2 <> 200 ->
    (forall p : provider,
        backend1 (sent st1) (passes_request self base p) = Response resp1 ->
        backend2 (sent st2) (passes_request self base p) = Response resp2 ->
        fst (list_passes environ ClientSession backend1 self p st1) =
          fst (list_passes environ ClientSession backend2 self p st2) ->
        status resp1 = status resp2)
    /\ (forall (pass_id : string) (w : wallet_type) (q : Z) (v1 v2 : json),
          backend1 (sent st1) (purchase_request self base pass_id w q) =
            Response resp1 ->
          backend2 (sent st2) (purchase_request self base pass_id w q) =
            Response resp2 ->
          json_body resp1 = Some v1 -> json_body resp2 = Some v2 ->
          fst (purchase_passes environ ClientSession backend1 self pass_id w q
              st1) =
            fst (purchase_passes environ ClientSession backend2 self pass_id w q
                st2) ->
          status resp1 = status resp2).
Proof.
  intros environ ClientSession backend1 backend2 self base st1 st2 resp1 resp2
      configured connected
    Hbad1 Hbad2. split.
  - intros p H1 H2.
    rewrite (list_passes_fails environ ClientSession backend1 self base
        configured connected p st1
               resp1 H1 Hbad1).
    rewrite (list_passes_fails environ ClientSession backend2 self base
        configured connected p st2
               resp2 H2 Hbad2).
    intros [= H]. exact (str_of_int_inj _ _ H).
  - intros pass_id w q v1 v2 H1 H2 J1 J2.
    rewrite (purchase_passes_fails environ ClientSession backend1 self base
        configured connected
               pass_id w q st1 resp1 v1 H1 J1 Hbad1).
    rewrite (purchase_passes_fails environ ClientSession backend2 self base
        configured connected
               pass_id w q st2 resp2 v2 H2 J2 Hbad2).
    unfold purchase_failure. intros [= H].
    apply append_cancel_l in H.
    change (", status code: " ++ str_of_int (status resp1) =
            ", status code: " ++ str_of_int (status resp2)) in H.
    apply append_cancel_l in H. exact (str_of_int_inj _ _ H).
Qed.

Lemma failure_tells_status_witness :
  status (mkResponse 404 "" None) = status (mkResponse 404 "gone" None).
Proof.
  refine (proj1 (failure_tells_status the_environ session_opens
                   (always (mkResponse 404 "" None))
                   (always (mkResponse 404 "gone" None))
                   rider "https://wallet.example" fresh fresh
                   (mkResponse 404 "" None) (mkResponse 404 "gone" None)
                   eq_refl eq_refl _ _) DDOT eq_refl eq_refl eq_refl);
    discriminate.
Defined.

(** ** Session start *)

Lemma dict_get_attributes (key : string) (attrs : dict string) :
  dict_get key (map (fun kv => (fst kv, JStr (snd kv))) attrs) =
    option_map JStr (dict_get key attrs).
Proof.
  induction attrs as [| [k v] attrs IH]; cbn [map dict_get fst snd].
  - reflexivity.
  - destruct (String.eqb key k); [reflexivity | exact IH].
Qed.

(** What [load_prompt] does to the state: it sends nothing and only adds
    lines to the output. *)
Lemma load_prompt_state (open_read : string -> result string)
  (yaml_safe_load : string -> result json) (filename : string) (st : state) :
  sent (snd (load_prompt open_read yaml_safe_load filename st)) = sent st /\
  exists l : list output,
    out (snd (load_prompt open_read yaml_safe_load filename st)) =
      (out st ++ l)%list.
Proof.
  unfold load_prompt, try_except, bind, of_result, print, ret, raise.
  destruct (open_read filename) as [content | e].
  - destruct (yaml_safe_load content) as [v | e].
    + destruct (get_instructions v) as [i | e].
      * split; [reflexivity|]. exists []. rewrite app_nil_r. reflexivity.
      * destruct (prompt_errors e); cbn [snd sent out].
        -- split; [reflexivity|]. eexists. reflexivity.
        -- split; [reflexivity|]. exists []. rewrite app_nil_r. reflexivity.
    + destruct (prompt_errors e); cbn [snd sent out].
      * split; [reflexivity|]. eexists. reflexivity.
      * split; [reflexivity|]. exists []. rewrite app_nil_r. reflexivity.
  - destruct (prompt_errors e); cbn [snd sent out].
    + split; [reflexivity|]. eexists. reflexivity.
    + split; [reflexivity|]. exists []. rewrite app_nil_r. reflexivity.
Qed.

Lemma entrypoint_eq (open_read : string -> result string)
  (yaml_safe_load : string -> result json) (participant : Participant)
  (st : state) :
  entrypoint open_read yaml_safe_load participant st =
    match load_prompt open_read yaml_safe_load "support_agent.yaml"
            (entrypoint_logged participant st) with
    | (Ok prompt, st') =>
        (Ok (mkAgent (dict_get "username" (attributes participant))
               (dict_get "auth_key" (attributes participant)) prompt), st')
    | (Raise e, st') => (Raise e, st')
    end.
Proof. reflexivity. Qed.

(** X14.  The agent [entrypoint] builds takes its token from the
    participant's attribute 'auth_key': every request of every later
    conversation carries [Bearer <that attribute>], and [Bearer None] when
    the participant has no such attribute. *)
Theorem entrypoint_token_reaches_requests :
  forall (open_read : string -> result string)
         (yaml_safe_load : string -> result json)
         (environ : dict string)
         (ClientSession : string -> result unit)
         (coerce_int : json -> option Z)
         (backend : list request -> request -> reply)
         (participant : Participant) (st0 : state) (agent : FunctionAgent)
         (calls : list tool_call) (st : state),
    fst (entrypoint open_read yaml_safe_load participant st0) = Ok agent ->
    Forall
      (fun r : request =>
         authorization r =
           Some ("Bearer " ++
                 match dict_get "auth_key" (attributes participant) with
                 | Some token => token
                 | None => "None"
                 end))
      (issued st (run_session environ ClientSession coerce_int backend agent
          calls st)).
Proof.
  intros open_read yaml_safe_load environ ClientSession coerce_int backend
    participant st0 agent calls st started.
  rewrite entrypoint_eq in started.
  destruct (load_prompt open_read yaml_safe_load "support_agent.yaml"
              (entrypoint_logged participant st0)) as [[prompt | e] st'];
    [|discriminate started].
  injection started as <-.
  destruct (run_session_sends_only
              (fun r : request =>
                 authorization r =
                   Some ("Bearer " ++
                         match dict_get "auth_key" (attributes participant) with
                         | Some token => token
                         | None => "None"
                         end))
              environ ClientSession coerce_int backend
              (mkAgent (dict_get "username" (attributes participant))
                 (dict_get "auth_key" (attributes participant)) prompt)
              calls) with (st := st) as [l [Hsent Hl]].
  - intros c _. apply invoke_sends_only; intros; reflexivity.
  - unfold issued. rewrite Hsent, skipn_app, skipn_all, Nat.sub_diag.
    exact Hl.
Qed.

Lemma entrypoint_token_reaches_requests_witness :
  Forall (fun r : request => authorization r = Some "Bearer None")
    (issued fresh
       (run_session the_environ session_opens strict_int (always (mkResponse 200
           "[]" None))
          (mkAgent (Some "Ada") None (JStr "Be kind."))
          [list_passes_call DDOT] fresh)).
Proof.
  exact (entrypoint_token_reaches_requests
           (fun _ => Ok "instructions: Be kind.")
           (fun _ => Ok (JObj [("instructions", JStr "Be kind.")]))
           the_environ session_opens strict_int
           (always (mkResponse 200 "[]" None))
           (mkParticipant "id-1" "Ada" [("username", "Ada")]) fresh
           (mkAgent (Some "Ada") None (JStr "Be kind."))
           [list_passes_call DDOT] fresh eq_refl).
Defined.

(** X15.  [entrypoint] writes the participant's attributes to the log as
    they are: when the participant carries an 'auth_key', the token is in
    the log, whether or not the agent is then built. *)
Theorem entrypoint_logs_token :
  forall (open_read : string -> result string)
         (yaml_safe_load : string -> result json)
         (participant : Participant) (st : state) (token : string),
    dict_get "auth_key" (attributes participant) = Some token ->
    exists fields : dict json,
      In (LogInfo (LFmt "ATTRIBUTES: " (JObj fields)))
         (out (snd (entrypoint open_read yaml_safe_load participant st))) /\
      dict_get "auth_key" fields = Some (JStr token).
Proof.
  intros open_read yaml_safe_load participant st token Htoken.
  exists (map (fun kv => (fst kv, JStr (snd kv))) (attributes participant)).
  split.
  - rewrite entrypoint_eq.
    destruct (load_prompt_state open_read yaml_safe_load "support_agent.yaml"
                (entrypoint_logged participant st)) as [_ [l Hout]].
    assert (Hin : In (LogInfo (LFmt "ATTRIBUTES: "
                        (attributes_object (attributes participant))))
                    (out (entrypoint_logged participant st) ++ l)).
    { apply in_or_app. left. cbn [entrypoint_logged out].
      apply in_or_app. right. left. reflexivity. }
    rewrite <- Hout in Hin.
    destruct (load_prompt open_read yaml_safe_load "support_agent.yaml"
                (entrypoint_logged participant st)) as [[prompt | e] st'];
      exact Hin.
  - rewrite dict_get_attributes, Htoken. reflexivity.
Qed.

Lemma entrypoint_logs_token_witness :
  exists fields : dict json,
    In (LogInfo (LFmt "ATTRIBUTES: " (JObj fields)))
       (out (snd (entrypoint (fun _ => Raise (FileNotFoundError "missing"))
                    (fun _ => Ok JNull)
                    (mkParticipant "id-1" "Ada"
                       [("username", "Ada"); ("auth_key", "token")])
                    fresh))) /\
    dict_get "auth_key" fields = Some (JStr "token").
Proof.
  exact (entrypoint_logs_token (fun _ => Raise (FileNotFoundError "missing"))
           (fun _ => Ok JNull)
           (mkParticipant "id-1" "Ada"
              [("username", "Ada"); ("auth_key", "token")])
           fresh "token" eq_refl).
Defined.



Lemma prefix_append (a b : string) : String.prefix a (a ++ b) = true.
Proof.
  induction a as [| c a IH]; cbn [append String.prefix].
  - destruct b; reflexivity.
  - destruct (ascii_dec c c) as [_ | differs]; [exact IH | now destruct
      differs].
Qed.

Lemma append_assoc (a b c : string) : (a ++ b) ++ c = a ++ b ++ c.
Proof.
  induction a as [| x a IH]; cbn [append]; [reflexivity | now rewrite IH].
Qed.

(** X17.  The greeting the agent is told to give on entering names the
    participant's 'username' attribute, and reads "Greet None." when the
    participant has none. *)
Theorem greeting_addresses_username :
  forall (open_read : string -> result string)
         (yaml_safe_load : string -> result json)
         (participant : Participant) (st : state) (agent : FunctionAgent),
    fst (entrypoint open_read yaml_safe_load participant st) = Ok agent ->
    String.prefix
      ("Greet " ++
       match dict_get "username" (attributes participant) with
       | Some user => user
       | None => "None"
       end ++ ".")
      (on_enter agent) = true.
Proof.
  intros open_read yaml_safe_load participant st agent started.
  rewrite entrypoint_eq in started.
  destruct (load_prompt open_read yaml_safe_load "support_agent.yaml"
              (entrypoint_logged participant st)) as [[prompt | e] st'];
    [|discriminate started].
  injection started as <-. unfold on_enter. cbn [username].
  change (match dict_get "username" (attributes participant) with
          | Some user => user
          | None => "None"
          end)
    with (str_of_optional (dict_get "username" (attributes participant))).
  set (user := str_of_optional (dict_get "username" (attributes participant))).
  assert (Hassoc : forall rest : string,
             "Greet " ++ user ++ "." ++ rest =
             ("Greet " ++ user ++ ".") ++ rest).
  { intros rest. rewrite !append_assoc. reflexivity. }
  rewrite Hassoc. apply prefix_append.
Qed.

Lemma greeting_addresses_username_witness :
  String.prefix "Greet None."
    (on_enter (mkAgent None (Some "token") (JStr ""))) = true.
Proof.
  exact (greeting_addresses_username
           (fun _ => Raise (FileNotFoundError "missing")) (fun _ => Ok JNull)
           (mkParticipant "id-1" "Ada" [("auth_key", "token")]) fresh
           (mkAgent None (Some "token") (JStr "")) eq_refl).
Defined.

(** ** The wallet of a purchase *)

(** X19.  The requests [purchase_passes] sends are the same whatever the
    backend has answered or will answer, and each carries, as
    [wallet_type], the [type_of_wallet] the caller passed: the tool does
    not choose the wallet. *)
Theorem purchase_wallet_is_callers :
  forall (environ : dict string)
         (ClientSession : string -> result unit)
         (backend backend' : list request -> request -> reply)
         (self : FunctionAgent) (pass_id : string) (w : wallet_type) (q : Z)
         (st : state),
    sent (snd (purchase_passes environ ClientSession backend self pass_id w q
                 st)) =
      sent (snd (purchase_passes environ ClientSession backend' self pass_id
                   w q st))
    /\ (forall r : request,
          In r (issued st (purchase_passes environ ClientSession backend self
                             pass_id w q st)) ->
          req_json r =
            Some (JObj [ ("wallet_type", JStr (wallet_type_name w));
                         ("pass_ids",
                          JList [ JObj [ ("pass_id", JStr pass_id);
                                         ("quantity", JInt q) ] ]) ])).
Proof.
  intros environ ClientSession backend backend' self pass_id w q st.
  destruct (dict_get "MYRIDE_WALLET_API" environ) as [base |] eqn:configured.
  - destruct (ClientSession base) as [[] | e] eqn:connected.
    + split.
      * rewrite !(purchase_passes_sends environ ClientSession _ self base
                    configured connected).
        reflexivity.
      * intros r. unfold issued.
        rewrite (purchase_passes_sends environ ClientSession _ self base
                   configured connected).
        rewrite skipn_app, skipn_all, Nat.sub_diag. simpl.
        intros [<- | []]. reflexivity.
    + split.
      * rewrite !(purchase_passes_refused environ ClientSession _ self base e
                    configured connected).
        reflexivity.
      * intros r. unfold issued.
        rewrite (purchase_passes_refused environ ClientSession _ self base e
                   configured connected).
        cbn [snd sent]. rewrite skipn_all. intros [].
  - assert (Hnone : forall b,
              sent (snd (purchase_passes environ ClientSession b self pass_id
                           w q st)) = sent st).
    { intros b. unfold purchase_passes, bind, os_environ.
      rewrite configured. reflexivity. }
    split.
    + rewrite !Hnone. reflexivity.
    + intros r. unfold issued. rewrite Hnone, skipn_all. intros [].
Qed.

Lemma purchase_wallet_is_callers_witness :
  req_json (purchase_request rider "https://wallet.example" "ddot-weekly"
              Subsidy 1) =
    Some (JObj [ ("wallet_type", JStr "Subsidy");
                 ("pass_ids",
                  JList [ JObj [ ("pass_id", JStr "ddot-weekly");
                                 ("quantity", JInt 1) ] ]) ]).
Proof.
  apply (proj2 (purchase_wallet_is_callers the_environ session_opens
                  (always (mkResponse 200 "{}" (Some (JObj []))))
                  (always (mkResponse 500 "" None))
                  rider "ddot-weekly" Subsidy 1 fresh)).
  left. reflexivity.
Defined.
